(** * The HTTP handler of the InfluxDB server (handler.go)

    A shallow embedding of [handler.go]: the credential extractor
    [getUsernameAndPassword], the authentication wrapper
    [makeAuthenticationHandler] and the resource handlers, followed by
    the properties of the gateway that the specification states.

    Go strings are byte strings: they are [string] here, a list of
    [ascii] bytes.  The server behind the handler ([h.server]) is an
    external collaborator: a handler is a tree of calls to it, and [run]
    executes such a tree against any implementation of the server. *)

From Stdlib Require Import Ascii String NArith ZArith Lia DecimalString DecimalN.
From stdpp Require Import base option list strings gmap.

Local Open Scope string_scope.
Local Open Scope list_scope.
#[local] Set Warnings "-register-all".

(** ** Go library: package strings *)

Module strings.

(** [strings.Split(s, sep)] for a separator of one byte, the only way
    the handler calls it: the substrings of [s] between the occurrences
    of [sep], one more than there are occurrences. *)
Fixpoint Split (s : string) (sep : ascii) : list string :=
  match s with
  | EmptyString => [EmptyString]
  | String c s' =>
      if Ascii.eqb c sep then EmptyString :: Split s' sep
      else match Split s' sep with
           | f :: fs => String c f :: fs
           | [] => [String c EmptyString]
           end
  end.

(** [!strings.Contains(s, c)] for a byte [c]. *)
Fixpoint free_of (c : ascii) (s : string) : bool :=
  match s with
  | EmptyString => true
  | String x s' => negb (Ascii.eqb x c) && free_of c s'
  end.

End strings.

(** ** Go library: package encoding/base64, [StdEncoding] *)

Module base64.

(** The alphabet of the standard encoding. *)
Definition encodeStd : string :=
  "ABCDEFGHIJKLMNOPQRSTUVWXYZabcdefghijklmnopqrstuvwxyz0123456789+/".

Definition padChar : ascii := "="%char.

(** [encode[v]]: the character of a 6-bit value. *)
Definition encodeChar (v : N) : ascii :=
  match String.get (N.to_nat v) encodeStd with
  | Some c => c
  | None => padChar
  end.

Fixpoint index_of (c : ascii) (s : string) (i : N) : option N :=
  match s with
  | EmptyString => None
  | String x s' => if Ascii.eqb x c then Some i else index_of c s' (N.succ i)
  end.

(** [decodeMap[c]]: the 6-bit value of a character of the alphabet,
    [None] where Go's table holds 0xFF. *)
Definition decodeMap (c : ascii) : option N := index_of c encodeStd 0.

(** Three bytes make four 6-bit values. *)
Definition sextets (a b c : N) : N * N * N * N :=
  (a / 4, (a mod 4) * 16 + b / 16, (b mod 16) * 4 + c / 64, c mod 64)%N.

(** Four 6-bit values make three bytes; a padded quantum keeps the
    first one or two of them. *)
Definition byte0 (d0 d1 : N) : ascii := ascii_of_N ((d0 * 4 + d1 / 16) mod 256).
Definition byte1 (d1 d2 : N) : ascii := ascii_of_N (((d1 mod 16) * 16 + d2 / 4) mod 256).
Definition byte2 (d2 d3 : N) : ascii := ascii_of_N (((d2 mod 4) * 64 + d3) mod 256).

(** [Encoding.Encode]: whole groups of three bytes, then a group of one
    or two bytes padded with [=]. *)
Fixpoint encode (src : list ascii) : list ascii :=
  match src with
  | [] => []
  | [a] =>
      let '(s0, s1, _, _) := sextets (N_of_ascii a) 0 0 in
      [encodeChar s0; encodeChar s1; padChar; padChar]
  | [a; b] =>
      let '(s0, s1, s2, _) := sextets (N_of_ascii a) (N_of_ascii b) 0 in
      [encodeChar s0; encodeChar s1; encodeChar s2; padChar]
  | a :: b :: c :: rest =>
      let '(s0, s1, s2, s3) := sextets (N_of_ascii a) (N_of_ascii b) (N_of_ascii c) in
      encodeChar s0 :: encodeChar s1 :: encodeChar s2 :: encodeChar s3 :: encode rest
  end.

Definition EncodeToString (src : string) : string :=
  string_of_list_ascii (encode (list_ascii_of_string src)).

Definition is_newline (c : ascii) : bool :=
  Ascii.eqb c "010"%char || Ascii.eqb c "013"%char.

(** [Encoding.decode] on an input without line breaks: quanta of four
    characters of the alphabet; the last quantum may end in [==] or
    [=], and nothing may follow the padding.  The encoding is not
    strict: the unused low bits of a padded quantum are not checked. *)
Fixpoint decode (src : list ascii) : option (list ascii) :=
  match src with
  | [] => Some []
  | c0 :: c1 :: c2 :: c3 :: rest =>
      match decodeMap c0, decodeMap c1 with
      | Some d0, Some d1 =>
          match decodeMap c2 with
          | Some d2 =>
              match decodeMap c3 with
              | Some d3 =>
                  match decode rest with
                  | Some out => Some (byte0 d0 d1 :: byte1 d1 d2 :: byte2 d2 d3 :: out)
                  | None => None
                  end
              | None =>
                  match rest with
                  | [] => if Ascii.eqb c3 padChar then Some [byte0 d0 d1; byte1 d1 d2] else None
                  | _ :: _ => None
                  end
              end
          | None =>
              match rest with
              | [] => if Ascii.eqb c2 padChar && Ascii.eqb c3 padChar then Some [byte0 d0 d1] else None
              | _ :: _ => None
              end
          end
      | _, _ => None
      end
  | _ => None
  end.

(** [Encoding.DecodeString]: carriage returns and line feeds are
    ignored, the rest is decoded; [None] is a [CorruptInputError]. *)
Definition DecodeString (s : string) : option string :=
  match decode (filter (fun c => is_newline c = false) (list_ascii_of_string s)) with
  | Some out => Some (string_of_list_ascii out)
  | None => None
  end.

End base64.

(** ** Go library: package strconv *)

Module strconv.

Definition digit (c : ascii) : option N :=
  let n := N_of_ascii c in
  if (48 <=? n)%N && (n <=? 57)%N then Some (n - 48)%N else None.

Fixpoint digits (s : string) (acc : N) : option N :=
  match s with
  | EmptyString => Some acc
  | String c s' =>
      match digit c with
      | Some d => digits s' (acc * 10 + d)%N
      | None => None
      end
  end.

(** [strconv.ParseUint(s, 10, 64)]: a non-empty run of decimal digits,
    without sign, whose value fits 64 bits; [None] is a [*NumError]. *)
Definition ParseUint (s : string) : option N :=
  match s with
  | EmptyString => None
  | _ =>
      match digits s 0 with
      | Some n => if (n <? 2 ^ 64)%N then Some n else None
      | None => None
      end
  end.

End strconv.

(** ** Errors *)

(** The values of Go's [error] interface that reach the handler.  The
    named constants are the package's sentinel errors, which the handler
    compares by identity; [Errorf] is every other error value, with its
    message. *)
Inductive error : Type :=
| ErrDatabaseExists
| ErrDatabaseNotFound
| ErrDatabaseNameRequired
| ErrUserExists
| ErrUserNotFound
| ErrRetentionPolicyExists
| ErrRetentionPolicyNotFound
| ErrDataNodeExists
| ErrDataNodeNotFound
| Errorf (msg : string).

#[global] Instance error_eq_dec : EqDecision error.
Proof. solve_decision. Defined.

(** Modelled from the spec: the messages of the sentinel errors, which are
    declared outside handler.go; the spec quotes "database exists" and
    "database not found", the others follow the same wording. *)
Definition Error (e : error) : string :=
  match e with
  | ErrDatabaseExists => "database exists"
  | ErrDatabaseNotFound => "database not found"
  | ErrDatabaseNameRequired => "database name required"
  | ErrUserExists => "user exists"
  | ErrUserNotFound => "user not found"
  | ErrRetentionPolicyExists => "retention policy exists"
  | ErrRetentionPolicyNotFound => "retention policy not found"
  | ErrDataNodeExists => "data node exists"
  | ErrDataNodeNotFound => "data node not found"
  | Errorf msg => msg
  end.

(** [err == sentinel] on a returned error, [nil] included. *)
Definition err_is (err : option error) (sentinel : error) : bool :=
  bool_decide (err = Some sentinel).

(** ** Go library: package encoding/json *)

Module json.

(** A JSON value; a number keeps its literal. *)
Inductive Value : Type :=
| JNull
| JBool (b : bool)
| JNumber (lit : string)
| JString (s : string)
| JArray (elems : list Value)
| JObject (members : list (string * Value)).

Definition kind (v : Value) : string :=
  match v with
  | JNull => "null"
  | JBool _ => "bool"
  | JNumber lit => "number " +:+ lit
  | JString _ => "string"
  | JArray _ => "array"
  | JObject _ => "object"
  end.

(** An [*UnmarshalTypeError]: a JSON value that does not fit the Go
    type it is decoded into. *)
Definition UnmarshalTypeError (v : Value) (type : string) : error :=
  Errorf ("json: cannot unmarshal " +:+ kind v +:+ " into Go value of type " +:+ type).

Definition lower (c : ascii) : ascii :=
  let n := N_of_ascii c in
  if (65 <=? n)%N && (n <=? 90)%N then ascii_of_N (n + 32) else c.

Fixpoint ToLower (s : string) : string :=
  match s with
  | EmptyString => EmptyString
  | String c s' => String (lower c) (ToLower s')
  end.

(** A member of a JSON object names a struct field when the key equals
    the field's tag up to the case of its ASCII letters.  (Go folds a few
    letters outside ASCII onto [k] and [s] as well; such keys count as
    unknown here.) *)
Definition names (key tag : string) : bool := String.eqb (ToLower key) (ToLower tag).

(** Decoding a value into a field of type string, bool or uint64:
    [null] leaves the field as it is. *)
Definition intoString (v : Value) (old : string) : error + string :=
  match v with
  | JString s => inr s
  | JNull => inr old
  | _ => inl (UnmarshalTypeError v "string")
  end.

Definition intoBool (v : Value) (old : bool) : error + bool :=
  match v with
  | JBool b => inr b
  | JNull => inr old
  | _ => inl (UnmarshalTypeError v "bool")
  end.

Definition intoUint64 (v : Value) (old : N) : error + N :=
  match v with
  | JNumber lit =>
      match strconv.ParseUint lit with
      | Some n => inr n
      | None => inl (UnmarshalTypeError v "uint64")
      end
  | JNull => inr old
  | _ => inl (UnmarshalTypeError v "uint64")
  end.

(** Decoding a value into a struct [T]: [null] leaves the struct as it
    is, an object sets the fields its members name, in their order, and
    any other value is a type error.  [field key v t] decodes the member
    [key: v] into [t] and leaves [t] alone when no field has that name.
    The decoder reports the first type error it met; the struct it
    leaves behind is then of no use to the handler. *)
Definition intoStruct {T : Type} (type : string)
    (field : string -> Value -> T -> error + T) (v : Value) (t : T) : error + T :=
  match v with
  | JNull => inr t
  | JObject members =>
      foldl (fun acc m => match acc with
                          | inr t' => field (fst m) (snd m) t'
                          | inl e => inl e
                          end) (inr t) members
  | _ => inl (UnmarshalTypeError v type)
  end.

(** What [json.NewDecoder(body)] makes of the bytes of a body: the
    scanner's error (a [*SyntaxError], [io.EOF] on an empty body), or
    the first JSON value of the stream.  The scanner is Go's and is not
    modelled; a request carries its outcome. *)
Definition Stream : Type := error + Value.

(** [dec.Decode(&t)] for a struct [t]. *)
Definition Decode {T : Type} (type : string)
    (field : string -> Value -> T -> error + T) (body : Stream) (t : T) : error + T :=
  match body with
  | inl e => inl e
  | inr v => intoStruct type field v t
  end.

End json.

(** ** Go library: package net/url *)

Module url.

(** [url.Values], a [map[string][]string]. *)
Abbreviation Values := (gmap string (list string)).

(** [Values.Get]: the first value of a key, the empty string without
    one. *)
Definition Get (v : Values) (key : string) : string :=
  match v !! key with
  | Some (x :: _) => x
  | _ => ""
  end.

(** A parsed [*url.URL].  The handler hands it to the server and prints
    it with [String()]; it is kept as that printed form. *)
Record URL : Type := mkURL { URL_String : string }.

#[global] Instance URL_eq_dec : EqDecision URL.
Proof. solve_decision. Defined.

End url.

(** ** Go library: package net/http *)

Module http.

Definition StatusOK : Z := 200.
Definition StatusCreated : Z := 201.
Definition StatusNoContent : Z := 204.
Definition StatusBadRequest : Z := 400.
Definition StatusUnauthorized : Z := 401.
Definition StatusNotFound : Z := 404.
Definition StatusConflict : Z := 409.
Definition StatusInternalServerError : Z := 500.

(** [http.Header], a [map[string][]string] under canonical keys. *)
Abbreviation MIMEHeader := (gmap string (list string)).

Definition Header_Get (h : MIMEHeader) (key : string) : string :=
  match h !! key with
  | Some (x :: _) => x
  | _ => ""
  end.

Definition Header_Add (h : MIMEHeader) (key value : string) : MIMEHeader :=
  <[key := default [] (h !! key) ++ [value]]> h.

Definition Header_Set (h : MIMEHeader) (key value : string) : MIMEHeader :=
  <[key := [value]]> h.

(** The part of a [*http.Request] the handler reads.  [Query] is
    [r.URL.Query()]; the router adds the parameters of the path to it
    under keys that start with a colon. *)
Record Request : Type := mkRequest {
  Method : string;
  Query : url.Values;
  Header : MIMEHeader;
  Body : json.Stream
}.

(** What is written to a response body: text, or the document that a
    [json.Encoder] writes for a value. *)
Inductive Chunk : Type :=
| Text (s : string)
| JSON (v : json.Value).

(** A [http.ResponseWriter]: the header map the handler edits, the
    status and the headers fixed by the first [WriteHeader], and the
    body written so far. *)
Record ResponseWriter : Type := mkResponseWriter {
  handlerHeader : MIMEHeader;
  written : option (Z * MIMEHeader);
  body : list Chunk
}.

Definition NewResponseWriter : ResponseWriter :=
  {| handlerHeader := ∅; written := None; body := [] |}.

Definition AddHeader (w : ResponseWriter) (key value : string) : ResponseWriter :=
  {| handlerHeader := Header_Add (handlerHeader w) key value;
     written := written w; body := body w |}.

Definition SetHeader (w : ResponseWriter) (key value : string) : ResponseWriter :=
  {| handlerHeader := Header_Set (handlerHeader w) key value;
     written := written w; body := body w |}.

(** [w.WriteHeader(code)]: the first call fixes the status and the
    headers, a later call changes nothing. *)
Definition WriteHeader (w : ResponseWriter) (code : Z) : ResponseWriter :=
  match written w with
  | Some _ => w
  | None => {| handlerHeader := handlerHeader w;
               written := Some (code, handlerHeader w); body := body w |}
  end.

Definition bodyAllowedForStatus (code : Z) : bool :=
  negb ((100 <=? code)%Z && (code <=? 199)%Z)
  && negb (code =? 204)%Z && negb (code =? 304)%Z.

(** [w.Write(data)]: writes the header with status 200 first when no
    status was written; a status without a body takes none.  The content
    type that net/http sniffs from the data when the handler fixed none is
    not modelled: see [sent]. *)
Definition Write (w : ResponseWriter) (c : Chunk) : ResponseWriter :=
  let w' := WriteHeader w StatusOK in
  match written w' with
  | Some (code, _) =>
      if bodyAllowedForStatus code
      then {| handlerHeader := handlerHeader w'; written := written w';
              body := body w' ++ [c] |}
      else w'
  | None => w'
  end.

(** [http.Error(w, error, code)]: a plain-text content type, the status,
    and the message on a line. *)
Definition Error (w : ResponseWriter) (error : string) (code : Z) : ResponseWriter :=
  let w := SetHeader w "Content-Type" "text/plain; charset=utf-8" in
  let w := SetHeader w "X-Content-Type-Options" "nosniff" in
  let w := WriteHeader w code in
  Write w (Text (error +:+ String "010"%char EmptyString)).

(** The status the client receives when the handler has returned: the
    one written, 200 when none was. *)
Definition status (w : ResponseWriter) : Z :=
  match written w with
  | Some (code, _) => code
  | None => StatusOK
  end.

(** The headers that the handler has fixed for the response: its header
    map at the first [WriteHeader], or as it stands when nothing was
    written.  A header that is in this map is sent as it is.  The server of
    net/http adds headers of its own to it ([Date], [Content-Length], and a
    [Content-Type] that it sniffs from the body when the map holds none);
    they are not modelled, so the map says which headers the handler gave
    the response, not all that the client receives. *)
Definition sent (w : ResponseWriter) : MIMEHeader :=
  match written w with
  | Some (_, h) => h
  | None => handlerHeader w
  end.

End http.

(** ** The server behind the handler *)

(** Modelled from the spec: the [User] struct is declared outside
    handler.go; the handler reads its name and its admin flag, the two
    attributes the spec gives an identity. *)
Record User : Type := mkUser {
  User_Name : string;
  User_Admin : bool
}.

(** A [DataNode], as far as the handler reads it: [n.ID] and [n.URL]. *)
Record DataNode : Type := mkDataNode {
  DataNode_ID : N;
  DataNode_URL : url.URL
}.

(** Modelled from the spec: the [RetentionPolicy] struct is declared
    outside handler.go; a policy has a name, and its retention and
    replication attributes are opaque to the handler. *)
Record RetentionPolicy : Type := mkRetentionPolicy {
  RetentionPolicy_Name : string;
  RetentionPolicy_attributes : list (string * json.Value)
}.

#[global] Instance User_eq_dec : EqDecision User.
Proof. solve_decision. Defined.

Module Server.

(** The methods of [*Server] that the handler calls.  What the server
    lists for databases, shards and retention policies goes to the JSON
    encoder as it is: those results are the value the encoder writes. *)
Inductive call : Type :=
| AuthenticatedUser (username password : string)
| AdminUserExists
| Users
| CreateUser (name password : string) (admin : bool)
| UpdateUser (name password : string)
| DeleteUser (name : string)
| Databases
| CreateDatabase (name : string)
| DeleteDatabase (name : string)
| Shards (db : string)
| RetentionPolicies (db : string)
| CreateRetentionPolicy (db : string) (policy : RetentionPolicy)
| UpdateRetentionPolicy (db name : string) (policy : RetentionPolicy)
| DeleteRetentionPolicy (db name : string)
| DataNodes
| CreateDataNode (u : url.URL)
| DataNodeByURL (u : url.URL)
| DeleteDataNode (id : N).

(** The Go results of each method; a [nil] pointer or error is [None]. *)
Definition result (c : call) : Type :=
  match c with
  | AuthenticatedUser _ _ => (option User * option error)%type
  | AdminUserExists => bool
  | Users => list User
  | Databases => json.Value
  | Shards _ | RetentionPolicies _ => (json.Value * option error)%type
  | DataNodes => list DataNode
  | DataNodeByURL _ => option DataNode
  | CreateUser _ _ _ | UpdateUser _ _ | DeleteUser _
  | CreateDatabase _ | DeleteDatabase _
  | CreateRetentionPolicy _ _ | UpdateRetentionPolicy _ _ _
  | DeleteRetentionPolicy _ _
  | CreateDataNode _ | DeleteDataNode _ => option error
  end.

(** An implementation of the server over a state [St]. *)
Definition impl (St : Type) : Type := forall c : call, St -> result c * St.

Definition is_CreateUser (c : call) : bool :=
  match c with CreateUser _ _ _ => true | _ => false end.

Definition is_AuthenticatedUser (c : call) : bool :=
  match c with AuthenticatedUser _ _ => true | _ => false end.

(** The calls that create a resource. *)
Definition is_create (c : call) : bool :=
  match c with
  | CreateUser _ _ _ | CreateDatabase _ | CreateRetentionPolicy _ _
  | CreateDataNode _ => true
  | _ => false
  end.

End Server.

(** ** Handlers as programs over the server *)

(** A handler run: it returns, calls the server and goes on with the
    result, or panics (a [nil] dereference). *)
Inductive Prog (A : Type) : Type :=
| Ret (a : A)
| Do (c : Server.call) (k : Server.result c -> Prog A)
| Panic.

Arguments Ret {A} a.
Arguments Do {A} c k.
Arguments Panic {A}.

Fixpoint bind {A B : Type} (p : Prog A) (f : A -> Prog B) : Prog B :=
  match p with
  | Ret a => f a
  | Do c k => Do c (fun r => bind (k r) f)
  | Panic => Panic
  end.

#[global] Instance Prog_ret : MRet Prog := @Ret.
#[global] Instance Prog_bind : MBind Prog := fun A B f p => bind p f.

(** [h.server.m(args)]. *)
Definition call (c : Server.call) : Prog (Server.result c) := Do c Ret.

(** Running a program against a server from a state: the value returned
    ([None] after a panic), the state of the server at the end and the
    calls made, in order. *)
Fixpoint run {St A : Type} (srv : Server.impl St) (p : Prog A) (s : St)
    : option A * St * list Server.call :=
  match p with
  | Ret a => (Some a, s, [])
  | Panic => (None, s, [])
  | Do c k =>
      let '(r, s1) := srv c s in
      let '(a, s2, calls) := run srv (k r) s1 in
      (a, s2, c :: calls)
  end.

Definition returned {St A : Type} (out : option A * St * list Server.call) : option A :=
  out.1.1.

Definition calls {St A : Type} (out : option A * St * list Server.call) : list Server.call :=
  out.2.

(** ** handler.go *)

(** [getUsernameAndPassword] returns the username and password encoded in
    a request: the query parameters [u] and [p] when both are set, the
    Basic Authentication header otherwise. *)
Definition getUsernameAndPassword (r : http.Request) : string * string * option error :=
  let q := http.Query r in
  let username := url.Get q "u" in
  let password := url.Get q "p" in
  if negb (String.eqb username "") && negb (String.eqb password "")
  then (username, password, None)
  else
    let auth := http.Header_Get (http.Header r) "Authorization" in
    if String.eqb auth "" then ("", "", None)
    else
      let fields := strings.Split auth " " in
      if negb (length fields =? 2)%nat
      then ("", "", Some (Errorf "invalid Basic Authentication header"))
      else
        match base64.DecodeString (nth 1 fields "") with
        | None => ("", "", Some (Errorf "invalid Base64 encoding"))
        | Some bs =>
            let fields := strings.Split bs ":" in
            if negb (length fields =? 2)%nat
            then ("", "", Some (Errorf "invalid Basic Authentication value"))
            else (nth 0 fields "", nth 1 fields "", None)
        end.

(** The fields of [Handler] that the handlers read; [h.server] is the
    server the programs call, [h.mux] the router. *)
Record Handler : Type := mkHandler {
  AuthenticationEnabled : bool;
  Version : string
}.

(** [h.error]: returns an error to the client in a standard format. *)
Definition Handler_error (w : http.ResponseWriter) (error : string) (code : Z)
    : http.ResponseWriter :=
  http.Error w error code.

(** A handler that expects the authenticated user, [nil] as [None]. *)
Definition UserHandler : Type :=
  http.ResponseWriter -> http.Request -> option User -> Prog http.ResponseWriter.

Definition HandlerFunc : Type :=
  http.ResponseWriter -> http.Request -> Prog http.ResponseWriter.

(** [makeAuthenticationHandler]: when authentication is disabled, all
    operations are allowed and no credentials are required; when it is
    enabled, valid user credentials must be supplied. *)
Definition makeAuthenticationHandler (h : Handler) (fn : UserHandler) : HandlerFunc :=
  fun w r =>
    if AuthenticationEnabled h then
      let '(username, password, err) := getUsernameAndPassword r in
      match err with
      | Some e => Ret (Handler_error w (Error e) http.StatusUnauthorized)
      | None =>
          '(user, err) ← call (Server.AuthenticatedUser username password);
          match err with
          | Some e => Ret (Handler_error w (Error e) http.StatusUnauthorized)
          | None => fn w r user
          end
      end
    else fn w r None.

(** [json.NewEncoder(w).Encode(v)]. *)
Definition Encode (w : http.ResponseWriter) (v : json.Value) : http.ResponseWriter :=
  http.Write w (http.JSON v).

(** [serveDatabases] returns a list of all databases on the server. *)
Definition serveDatabases : UserHandler := fun w r u =>
  databases ← call Server.Databases;
  let w := http.AddHeader w "Content-Type" "application/json" in
  Ret (Encode w databases).

(** The request of [serveCreateDatabase]: [struct { Name string `json:"name"` }]. *)
Definition createDatabaseRequest_field (key : string) (v : json.Value) (name : string)
    : error + string :=
  if json.names key "name" then json.intoString v name else inr name.

(** [serveCreateDatabase] creates a new database on the server. *)
Definition serveCreateDatabase : UserHandler := fun w r u =>
  match json.Decode "struct { Name string }" createDatabaseRequest_field (http.Body r) "" with
  | inl err => Ret (Handler_error w (Error err) http.StatusBadRequest)
  | inr name =>
      if String.eqb name ""
      then Ret (Handler_error w (Error ErrDatabaseNameRequired) http.StatusBadRequest)
      else
        err ← call (Server.CreateDatabase name);
        match err with
        | Some e =>
            if err_is err ErrDatabaseExists
            then Ret (Handler_error w (Error e) http.StatusConflict)
            else Ret (Handler_error w (Error e) http.StatusInternalServerError)
        | None => Ret (http.WriteHeader w http.StatusCreated)
        end
  end.

(** [serveDeleteDatabase] deletes an existing database on the server. *)
Definition serveDeleteDatabase : UserHandler := fun w r u =>
  let name := url.Get (http.Query r) ":name" in
  err ← call (Server.DeleteDatabase name);
  match err with
  | Some e =>
      if err_is err ErrDatabaseNotFound
      then Ret (Handler_error w (Error e) http.StatusNotFound)
      else Ret (Handler_error w (Error e) http.StatusInternalServerError)
  | None => Ret (http.WriteHeader w http.StatusNoContent)
  end.

(** [serveAuthenticate] authenticates a user. *)
Definition serveAuthenticate : HandlerFunc := fun w r => Ret w.

(** The wire form of a user. *)
Record userJSON : Type := mkUserJSON {
  Name : string;
  Password : string;
  Admin : bool
}.

Definition userJSON_zero : userJSON := {| Name := ""; Password := ""; Admin := false |}.

(** The fields of [userJSON] by their tags [name], [password], [admin]. *)
Definition userJSON_field (key : string) (v : json.Value) (u : userJSON) : error + userJSON :=
  if json.names key "name" then
    match json.intoString v (Name u) with
    | inr s => inr {| Name := s; Password := Password u; Admin := Admin u |}
    | inl e => inl e
    end
  else if json.names key "password" then
    match json.intoString v (Password u) with
    | inr s => inr {| Name := Name u; Password := s; Admin := Admin u |}
    | inl e => inl e
    end
  else if json.names key "admin" then
    match json.intoBool v (Admin u) with
    | inr b => inr {| Name := Name u; Password := Password u; Admin := b |}
    | inl e => inl e
    end
  else inr u.

(** What the encoder writes for a [userJSON]: [password] and [admin] are
    tagged [omitempty]. *)
Definition userJSON_Marshal (u : userJSON) : json.Value :=
  json.JObject
    ([("name", json.JString (Name u))]
     ++ (if String.eqb (Password u) "" then [] else [("password", json.JString (Password u))])
     ++ (if Admin u then [("admin", json.JBool true)] else [])).

(** [serveUsers] returns data about the users. *)
Definition serveUsers : UserHandler := fun w r u =>
  users ← call Server.Users;
  let a := map (fun u => {| Name := User_Name u; Password := ""; Admin := User_Admin u |}) users in
  let w := http.AddHeader w "Content-Type" "application/json" in
  Ret (Encode w (json.JArray (map userJSON_Marshal a))).

(** [serveCreateUser] creates a new user.  Creating a user involves a
    non-standard authentication policy: iff no admin already exists, and
    the user being created will be an admin, no authorization is
    required. *)
Definition serveCreateUser (h : Handler) : HandlerFunc := fun w r =>
  match json.Decode "influxdb.userJSON" userJSON_field (http.Body r) userJSON_zero with
  | inl err => Ret (Handler_error w (Error err) http.StatusBadRequest)
  | inr newUser =>
      let create : Prog http.ResponseWriter :=
        err ← call (Server.CreateUser (Name newUser) (Password newUser) (Admin newUser));
        match err with
        | Some e =>
            if err_is err ErrUserExists
            then Ret (Handler_error w (Error e) http.StatusConflict)
            else Ret (Handler_error w (Error e) http.StatusInternalServerError)
        | None => Ret w
        end in
      required ←
        (if AuthenticationEnabled h then
           exists_ ← call Server.AdminUserExists;
           Ret (exists_ || negb (Admin newUser))
         else Ret false);
      if required : bool then
        let '(username, password, err) := getUsernameAndPassword r in
        match err with
        | Some e => Ret (Handler_error w (Error e) http.StatusUnauthorized)
        | None =>
            '(_, err) ← call (Server.AuthenticatedUser username password);
            match err with
            | Some e => Ret (Handler_error w (Error e) http.StatusUnauthorized)
            | None => create
            end
        end
      else create
  end.

(** Modelled from the spec: the JSON tags of [User], declared outside
    handler.go, taken to be those of its wire form, [name] and [admin]. *)
Definition User_field (key : string) (v : json.Value) (u : User) : error + User :=
  if json.names key "name" then
    match json.intoString v (User_Name u) with
    | inr s => inr {| User_Name := s; User_Admin := User_Admin u |}
    | inl e => inl e
    end
  else if json.names key "admin" then
    match json.intoBool v (User_Admin u) with
    | inr b => inr {| User_Name := User_Name u; User_Admin := b |}
    | inl e => inl e
    end
  else inr u.

(** [dec.Decode(&u)] for a pointer [u *User]: [null] makes the pointer
    [nil]; any other value is decoded into the user it points to, a new
    one when it is [nil].  When the gate resolved a user, that user is the
    server's own; what the decoding writes into it is not followed here,
    the handler reads nothing of [u] afterwards. *)
Definition Decode_User_pointer (body : json.Stream) (u : option User) : error + option User :=
  match body with
  | inl e => inl e
  | inr json.JNull => inr None
  | inr v =>
      match json.intoStruct "influxdb.User" User_field v
              (default {| User_Name := ""; User_Admin := false |} u) with
      | inr u' => inr (Some u')
      | inl e => inl e
      end
  end.

(** [serveUpdateUser] updates an existing user.  The body is decoded into
    the parameter [u]; the local [user] keeps the zero value it was
    declared with. *)
Definition serveUpdateUser : UserHandler := fun w r u =>
  let user := userJSON_zero in
  match Decode_User_pointer (http.Body r) u with
  | inl err => Ret (Handler_error w (Error err) http.StatusBadRequest)
  | inr u =>
      err ← call (Server.UpdateUser (url.Get (http.Query r) ":user") (Password user));
      match err with
      | Some e =>
          if err_is err ErrUserNotFound
          then Ret (Handler_error w (Error e) http.StatusNotFound)
          else Ret (Handler_error w (Error e) http.StatusInternalServerError)
      | None => Ret (http.WriteHeader w http.StatusNoContent)
      end
  end.

(** [serveDeleteUser] removes an existing user. *)
Definition serveDeleteUser : UserHandler := fun w r u =>
  err ← call (Server.DeleteUser (url.Get (http.Query r) ":user"));
  match err with
  | Some e =>
      if err_is err ErrUserNotFound
      then Ret (Handler_error w (Error e) http.StatusNotFound)
      else Ret (Handler_error w (Error e) http.StatusInternalServerError)
  | None => Ret (http.WriteHeader w http.StatusNoContent)
  end.

(** [servePing] lets the client know the server is running. *)
Definition servePing : UserHandler := fun w r u => Ret w.

(** [serveWriteSeries]: its body is commented out in the source. *)
Definition serveWriteSeries : UserHandler := fun w r u => Ret w.

(** [serveShards] returns a list of shards. *)
Definition serveShards : UserHandler := fun w r u =>
  let q := http.Query r in
  '(shards, err) ← call (Server.Shards (url.Get q ":db"));
  match err with
  | Some e =>
      if err_is err ErrDatabaseNotFound
      then Ret (Handler_error w (Error e) http.StatusNotFound)
      else Ret (Handler_error w (Error e) http.StatusInternalServerError)
  | None =>
      let w := http.AddHeader w "Content-Type" "application/json" in
      Ret (Encode w shards)
  end.

(** [serveDeleteShard] removes an existing shard: the function body is
    empty in the source. *)
Definition serveDeleteShard : UserHandler := fun w r u => Ret w.

(** [serveRetentionPolicies] returns a list of retention policies. *)
Definition serveRetentionPolicies : UserHandler := fun w r u =>
  '(policies, err) ← call (Server.RetentionPolicies (url.Get (http.Query r) ":db"));
  match err with
  | Some e =>
      if err_is err ErrDatabaseNotFound
      then Ret (Handler_error w (Error e) http.StatusNotFound)
      else Ret (Handler_error w (Error e) http.StatusInternalServerError)
  | None =>
      let w := http.AddHeader w "Content-Type" "application/json" in
      Ret (Encode w policies)
  end.

Definition RetentionPolicy_zero : RetentionPolicy :=
  {| RetentionPolicy_Name := ""; RetentionPolicy_attributes := [] |}.

(** Modelled from the spec: the wire form of a [RetentionPolicy], declared
    outside handler.go: its [name], and attributes that are kept as they
    come. *)
Definition RetentionPolicy_field (key : string) (v : json.Value) (p : RetentionPolicy)
    : error + RetentionPolicy :=
  if json.names key "name" then
    match json.intoString v (RetentionPolicy_Name p) with
    | inr s => inr {| RetentionPolicy_Name := s;
                      RetentionPolicy_attributes := RetentionPolicy_attributes p |}
    | inl e => inl e
    end
  else inr {| RetentionPolicy_Name := RetentionPolicy_Name p;
              RetentionPolicy_attributes := RetentionPolicy_attributes p ++ [(key, v)] |}.

(** [serveCreateRetentionPolicy] creates a new retention policy. *)
Definition serveCreateRetentionPolicy : UserHandler := fun w r u =>
  match json.Decode "influxdb.RetentionPolicy" RetentionPolicy_field (http.Body r)
          RetentionPolicy_zero with
  | inl err => Ret (Handler_error w (Error err) http.StatusBadRequest)
  | inr policy =>
      err ← call (Server.CreateRetentionPolicy (url.Get (http.Query r) ":db") policy);
      match err with
      | Some e =>
          if err_is err ErrDatabaseNotFound
          then Ret (Handler_error w (Error e) http.StatusNotFound)
          else if err_is err ErrRetentionPolicyExists
          then Ret (Handler_error w (Error e) http.StatusConflict)
          else Ret (Handler_error w (Error e) http.StatusInternalServerError)
      | None => Ret (http.WriteHeader w http.StatusCreated)
      end
  end.

(** [serveUpdateRetentionPolicy] updates an existing retention policy. *)
Definition serveUpdateRetentionPolicy : UserHandler := fun w r u =>
  let q := http.Query r in
  let db := url.Get q ":db" in
  let name := url.Get q ":name" in
  match json.Decode "influxdb.RetentionPolicy" RetentionPolicy_field (http.Body r)
          RetentionPolicy_zero with
  | inl err => Ret (Handler_error w (Error err) http.StatusBadRequest)
  | inr policy =>
      err ← call (Server.UpdateRetentionPolicy db name policy);
      match err with
      | Some e =>
          if err_is err ErrDatabaseNotFound || err_is err ErrRetentionPolicyNotFound
          then Ret (Handler_error w (Error e) http.StatusNotFound)
          else Ret (Handler_error w (Error e) http.StatusInternalServerError)
      | None => Ret (http.WriteHeader w http.StatusNoContent)
      end
  end.

(** [serveDeleteRetentionPolicy] removes an existing retention policy. *)
Definition serveDeleteRetentionPolicy : UserHandler := fun w r u =>
  let q := http.Query r in
  let db := url.Get q ":db" in
  let name := url.Get q ":name" in
  err ← call (Server.DeleteRetentionPolicy db name);
  match err with
  | Some e =>
      if err_is err ErrDatabaseNotFound || err_is err ErrRetentionPolicyNotFound
      then Ret (Handler_error w (Error e) http.StatusNotFound)
      else Ret (Handler_error w (Error e) http.StatusInternalServerError)
  | None => Ret (http.WriteHeader w http.StatusNoContent)
  end.

(** The wire form of a data node. *)
Record dataNodeJSON : Type := mkDataNodeJSON {
  ID : N;
  URL : string
}.

Definition dataNodeJSON_field (key : string) (v : json.Value) (n : dataNodeJSON)
    : error + dataNodeJSON :=
  if json.names key "id" then
    match json.intoUint64 v (ID n) with
    | inr i => inr {| ID := i; URL := URL n |}
    | inl e => inl e
    end
  else if json.names key "url" then
    match json.intoString v (URL n) with
    | inr s => inr {| ID := ID n; URL := s |}
    | inl e => inl e
    end
  else inr n.

Definition dataNodeJSON_Marshal (n : dataNodeJSON) : json.Value :=
  json.JObject
    [("id", json.JNumber (NilEmpty.string_of_uint (N.to_uint (ID n))));
     ("url", json.JString (URL n))].

(** [serveDataNodes] returns a list of all data nodes in the cluster. *)
Definition serveDataNodes : UserHandler := fun w r u =>
  nodes ← call Server.DataNodes;
  let a := map (fun n => {| ID := DataNode_ID n;
                            URL := url.URL_String (DataNode_URL n) |}) nodes in
  let w := http.AddHeader w "Content-Type" "application/json" in
  Ret (Encode w (json.JArray (map dataNodeJSON_Marshal a))).

(** [serveDeleteDataNode] removes an existing node. *)
Definition serveDeleteDataNode : UserHandler := fun w r u =>
  match strconv.ParseUint (url.Get (http.Query r) ":id") with
  | None => Ret (Handler_error w "invalid node id" http.StatusBadRequest)
  | Some nodeID =>
      err ← call (Server.DeleteDataNode nodeID);
      match err with
      | Some e =>
          if err_is err ErrDataNodeNotFound
          then Ret (Handler_error w (Error e) http.StatusNotFound)
          else Ret (Handler_error w (Error e) http.StatusInternalServerError)
      | None => Ret (http.WriteHeader w http.StatusNoContent)
      end
  end.

Section Parsers.

(** [url.Parse], Go's: the parsed URL, or [None] for its error. *)
Variable url_Parse : string -> option url.URL.

(** [influxql.NewParser(strings.NewReader(q)).ParseQuery()], the query
    language's parser: its error, if any. *)
Variable ParseQuery : string -> option error.

(** [serveCreateDataNode] creates a new data node in the cluster. *)
Definition serveCreateDataNode : UserHandler := fun w r u =>
  match json.Decode "influxdb.dataNodeJSON" dataNodeJSON_field (http.Body r)
          {| ID := 0; URL := "" |} with
  | inl err => Ret (Handler_error w (Error err) http.StatusBadRequest)
  | inr n =>
      match url_Parse (URL n) with
      | None => Ret (Handler_error w "invalid data node url" http.StatusBadRequest)
      | Some url =>
          err ← call (Server.CreateDataNode url);
          match err with
          | Some e =>
              if err_is err ErrDataNodeExists
              then Ret (Handler_error w (Error e) http.StatusConflict)
              else Ret (Handler_error w (Error e) http.StatusInternalServerError)
          | None =>
              node ← call (Server.DataNodeByURL url);
              let w := http.WriteHeader w http.StatusCreated in
              let w := http.AddHeader w "Content-Type" "application/json" in
              match node with
              | None => Panic
              | Some node =>
                  Ret (Encode w (dataNodeJSON_Marshal
                                   {| ID := DataNode_ID node;
                                      URL := url.URL_String (DataNode_URL node) |}))
              end
          end
      end
  end.

(** [serveQuery] parses an incoming query; the execution is commented
    out in the source. *)
Definition serveQuery : UserHandler := fun w r u =>
  let urlQry := http.Query r in
  match ParseQuery (url.Get urlQry "q") with
  | Some err => Ret (Handler_error w ("parse error: " +:+ Error err) http.StatusBadRequest)
  | None => Ret w
  end.

(** The routes that [NewHandler] registers behind
    [makeAuthenticationHandler], by method and pattern. *)
Definition protected : list (string * string * UserHandler) :=
  [ ("GET", "/users", serveUsers);
    ("PUT", "/users/:user", serveUpdateUser);
    ("DELETE", "/users/:user", serveDeleteUser);
    ("GET", "/db", serveDatabases);
    ("POST", "/db", serveCreateDatabase);
    ("DELETE", "/db/:name", serveDeleteDatabase);
    ("GET", "/db/:db/series", serveQuery);
    ("POST", "/db/:db/series", serveWriteSeries);
    ("GET", "/db/:db/shards", serveShards);
    ("DELETE", "/db/:db/shards/:id", serveDeleteShard);
    ("GET", "/db/:db/retention_policies", serveRetentionPolicies);
    ("POST", "/db/:db/retention_policies", serveCreateRetentionPolicy);
    ("PUT", "/db/:db/retention_policies/:name", serveUpdateRetentionPolicy);
    ("DELETE", "/db/:db/retention_policies/:name", serveDeleteRetentionPolicy);
    ("GET", "/data_nodes", serveDataNodes);
    ("POST", "/data_nodes", serveCreateDataNode);
    ("DELETE", "/data_nodes/:id", serveDeleteDataNode);
    ("GET", "/ping", servePing) ].

(** The routing table of [NewHandler]. *)
Definition routes (h : Handler) : list (string * string * HandlerFunc) :=
  [ ("GET", "/authenticate", serveAuthenticate);
    ("POST", "/users", serveCreateUser h) ]
  ++ map (fun rt => (rt.1.1, rt.1.2, makeAuthenticationHandler h rt.2)) protected.

(** [ServeHTTP] responds to a request: the cross-origin and version
    headers, then 200 for [OPTIONS] and the router [mux] for the rest. *)
Definition ServeHTTP (h : Handler) (mux : HandlerFunc) : HandlerFunc := fun w r =>
  let w := http.AddHeader w "Access-Control-Allow-Origin" "*" in
  let w := http.AddHeader w "Access-Control-Max-Age" "2592000" in
  let w := http.AddHeader w "Access-Control-Allow-Methods" "GET, POST, PUT, DELETE" in
  let w := http.AddHeader w "Access-Control-Allow-Headers"
             "Origin, X-Requested-With, Content-Type, Accept" in
  let w := http.AddHeader w "X-Influxdb-Version" (Version h) in
  if String.eqb (http.Method r) "OPTIONS"
  then Ret (http.WriteHeader w http.StatusOK)
  else mux w r.

End Parsers.

(** ** An in-memory server *)

(** Modelled from the spec: the server is an external collaborator whose
    source (server.go) is not at hand.  This one keeps users, databases,
    retention policies and data nodes in lists and answers with the
    sentinel errors the spec's error table names: not found for a missing
    resource, already exists for a duplicate.  The theorems below hold for
    every server; this one gives them concrete runs. *)
Module MemServer.

Record state : Type := mkState {
  users : list (string * string * bool);
  databases : list string;
  policies : list (string * string);
  nodes : list DataNode
}.

Definition empty : state :=
  {| users := []; databases := []; policies := []; nodes := [] |}.

Definition has_user (s : state) (name : string) : bool :=
  existsb (fun u => String.eqb u.1.1 name) (users s).

Definition has_database (s : state) (name : string) : bool :=
  existsb (String.eqb name) (databases s).

Definition has_policy (s : state) (db name : string) : bool :=
  existsb (fun p => String.eqb p.1 db && String.eqb p.2 name) (policies s).

Definition next_id (s : state) : N :=
  N.succ (foldr (fun n acc => N.max (DataNode_ID n) acc) 0%N (nodes s)).

Definition with_users (s : state) (us : list (string * string * bool)) : state :=
  {| users := us; databases := databases s; policies := policies s; nodes := nodes s |}.

Definition with_databases (s : state) (ds : list string) : state :=
  {| users := users s; databases := ds; policies := policies s; nodes := nodes s |}.

Definition with_policies (s : state) (ps : list (string * string)) : state :=
  {| users := users s; databases := databases s; policies := ps; nodes := nodes s |}.

Definition with_nodes (s : state) (ns : list DataNode) : state :=
  {| users := users s; databases := databases s; policies := policies s; nodes := ns |}.

Definition policies_of (s : state) (db : string) : json.Value :=
  json.JArray (map (fun p => json.JObject [("name", json.JString p.2)])
                 (filter (fun p => p.1 = db) (policies s))).

Definition server : Server.impl state := fun c s =>
  match c return Server.result c * state with
  | Server.AuthenticatedUser username password =>
      match find (fun u => String.eqb u.1.1 username && String.eqb u.1.2 password) (users s) with
      | Some u => ((Some {| User_Name := u.1.1; User_Admin := u.2 |}, None), s)
      | None => ((None, Some (Errorf "invalid username or password")), s)
      end
  | Server.AdminUserExists => (existsb (fun u => u.2) (users s), s)
  | Server.Users =>
      (map (fun u => {| User_Name := u.1.1; User_Admin := u.2 |}) (users s), s)
  | Server.CreateUser name password admin =>
      if has_user s name then (Some ErrUserExists, s)
      else (None, with_users s (users s ++ [(name, password, admin)]))
  | Server.UpdateUser name password =>
      if has_user s name
      then (None, with_users s (map (fun u => if String.eqb u.1.1 name
                                              then (name, password, u.2) else u) (users s)))
      else (Some ErrUserNotFound, s)
  | Server.DeleteUser name =>
      if has_user s name
      then (None, with_users s (filter (fun u => u.1.1 ≠ name) (users s)))
      else (Some ErrUserNotFound, s)
  | Server.Databases => (json.JArray (map json.JString (databases s)), s)
  | Server.CreateDatabase name =>
      if has_database s name then (Some ErrDatabaseExists, s)
      else (None, with_databases s (databases s ++ [name]))
  | Server.DeleteDatabase name =>
      if has_database s name
      then (None, with_databases s (filter (fun d => d ≠ name) (databases s)))
      else (Some ErrDatabaseNotFound, s)
  | Server.Shards db =>
      if has_database s db then ((json.JArray [], None), s)
      else ((json.JNull, Some ErrDatabaseNotFound), s)
  | Server.RetentionPolicies db =>
      if has_database s db then ((policies_of s db, None), s)
      else ((json.JNull, Some ErrDatabaseNotFound), s)
  | Server.CreateRetentionPolicy db policy =>
      if negb (has_database s db) then (Some ErrDatabaseNotFound, s)
      else if has_policy s db (RetentionPolicy_Name policy)
      then (Some ErrRetentionPolicyExists, s)
      else (None, with_policies s (policies s ++ [(db, RetentionPolicy_Name policy)]))
  | Server.UpdateRetentionPolicy db name policy =>
      if negb (has_database s db) then (Some ErrDatabaseNotFound, s)
      else if has_policy s db name then (None, s)
      else (Some ErrRetentionPolicyNotFound, s)
  | Server.DeleteRetentionPolicy db name =>
      if negb (has_database s db) then (Some ErrDatabaseNotFound, s)
      else if has_policy s db name
      then (None, with_policies s (filter (fun p => p ≠ (db, name)) (policies s)))
      else (Some ErrRetentionPolicyNotFound, s)
  | Server.DataNodes => (nodes s, s)
  | Server.CreateDataNode u =>
      if existsb (fun n => bool_decide (DataNode_URL n = u)) (nodes s)
      then (Some ErrDataNodeExists, s)
      else (None, with_nodes s (nodes s ++ [{| DataNode_ID := next_id s; DataNode_URL := u |}]))
  | Server.DataNodeByURL u =>
      (find (fun n => bool_decide (DataNode_URL n = u)) (nodes s), s)
  | Server.DeleteDataNode id =>
      if existsb (fun n => N.eqb (DataNode_ID n) id) (nodes s)
      then (None, with_nodes s (filter (fun n => DataNode_ID n ≠ id) (nodes s)))
      else (Some ErrDataNodeNotFound, s)
  end.

End MemServer.

(** ** Requests and handlers of the examples *)

Definition request (method : string) (query : list (string * string))
    (header : list (string * string)) (body : json.Stream) : http.Request :=
  {| http.Method := method;
     http.Query := list_to_map (map (fun kv => (kv.1, [kv.2])) query);
     http.Header := list_to_map (map (fun kv => (kv.1, [kv.2])) header);
     http.Body := body |}.

Definition secured : Handler := {| AuthenticationEnabled := true; Version := "0.9" |}.
Definition open : Handler := {| AuthenticationEnabled := false; Version := "0.9" |}.

Definition user_body (name password : string) (admin : bool) : json.Stream :=
  inr (json.JObject [("name", json.JString name); ("password", json.JString password);
                     ("admin", json.JBool admin)]).

Definition outcome {St : Type} (out : option http.ResponseWriter * St * list Server.call)
    : option Z * list Server.call :=
  (http.status <$> returned out, calls out).

(** The value of a Basic Authentication header for a username and a
    password: the scheme, a space, and the Base64 form of the two joined
    by a colon. *)
Definition Basic (username password : string) : string :=
  "Basic " +:+ base64.EncodeToString (username +:+ ":" +:+ password).

(** An [Authorization] value that is not empty and is malformed: not two
    tokens, a second token that is not standard Base64, or a decoded value
    that is not two fields around a colon.  The empty value is left out:
    the extractor takes it for an absent header. *)
Definition malformed (auth : string) : Prop :=
  auth ≠ "" ∧
  (length (strings.Split auth " ") ≠ 2
   ∨ base64.DecodeString (nth 1 (strings.Split auth " ") "") = None
   ∨ ∃ bs, base64.DecodeString (nth 1 (strings.Split auth " ") "") = Some bs
           ∧ length (strings.Split bs ":") ≠ 2).

(** The credentials in the query, when both are given. *)
Definition query_credentials (r : http.Request) : bool :=
  negb (String.eqb (url.Get (http.Query r) "u") "")
  && negb (String.eqb (url.Get (http.Query r) "p") "").

(** A run that asked the server to create a user without having asked it
    to authenticate anyone: the credential check was skipped. *)
Definition unauthenticated_create (cs : list Server.call) : bool :=
  forallb (fun c => negb (Server.is_AuthenticatedUser c)) cs
  && existsb Server.is_CreateUser cs.

(** The resources that have a create operation, and their handlers. *)
Inductive resource : Type := database | user | retention_policy | data_node.

Definition serveCreate (url_Parse : string -> option url.URL) (h : Handler)
    (kind : resource) : UserHandler :=
  match kind with
  | database => serveCreateDatabase
  | user => fun w r _ => serveCreateUser h w r
  | retention_policy => serveCreateRetentionPolicy
  | data_node => serveCreateDataNode url_Parse
  end.

(** The bodies that a create handler rejects itself: one that does not
    decode into the wire form of the resource, a database without a name,
    a data node whose URL does not parse. *)
Definition rejected (url_Parse : string -> option url.URL) (kind : resource)
    (body : json.Stream) : bool :=
  match kind with
  | database =>
      match json.Decode "struct { Name string }" createDatabaseRequest_field body "" with
      | inl _ => true
      | inr name => String.eqb name ""
      end
  | user =>
      match json.Decode "influxdb.userJSON" userJSON_field body userJSON_zero with
      | inl _ => true
      | inr _ => false
      end
  | retention_policy =>
      match json.Decode "influxdb.RetentionPolicy" RetentionPolicy_field body
              RetentionPolicy_zero with
      | inl _ => true
      | inr _ => false
      end
  | data_node =>
      match json.Decode "influxdb.dataNodeJSON" dataNodeJSON_field body
              {| ID := 0; URL := "" |} with
      | inl _ => true
      | inr n => match url_Parse (URL n) with None => true | Some _ => false end
      end
  end.

(** A parser for the examples: [url.Parse] reports a missing protocol
    scheme for an input that starts with a colon; the other inputs are
    taken as they are. *)
Definition parse_example (s : string) : option url.URL :=
  match s with
  | String ":" _ => None
  | _ => Some {| url.URL_String := s |}
  end.

Definition alice_request : http.Request :=
  request "GET" [("u", "")] [("Authorization", Basic "alice" "s3cret/+ ")] (inl (Errorf "EOF")).

Definition colon_request : http.Request :=
  request "GET" [] [("Authorization", Basic "alice" "pass:word")] (inl (Errorf "EOF")).

Definition username_only_request : http.Request :=
  request "GET" [("u", "alice")] [] (inl (Errorf "EOF")).


Definition one_token_request : http.Request :=
  request "GET" [] [("Authorization", "Basic")] (inl (Errorf "EOF")).

Definition anonymous_request (method : string) (body : json.Stream) : http.Request :=
  request method [] [] body.

Definition root_request (method : string) (body : json.Stream) : http.Request :=
  request method [("u", "root"); ("p", "toor")] [] body.

(** A server that has the administrator [root]. *)
Definition rooted : MemServer.state :=
  MemServer.with_users MemServer.empty [("root", "toor", true)].

(** The status of the response of a run that returned. *)
Definition status_of {St : Type} (out : option http.ResponseWriter * St * list Server.call)
    : option Z :=
  http.status <$> returned out.

(** A run that starts with the call [c] and goes on as [out]. *)
Definition after {St A : Type} (c : Server.call) (out : option A * St * list Server.call)
    : option A * St * list Server.call :=
  (out.1.1, out.1.2, c :: out.2).

(** The request presents valid credentials: the extractor finds a pair and
    the server, in state [s], authenticates it. *)
Definition authenticates {St : Type} (srv : Server.impl St) (s : St) (r : http.Request)
    : bool :=
  match getUsernameAndPassword r with
  | (username, password, None) =>
      match (srv (Server.AuthenticatedUser username password) s).1.2 with
      | None => true
      | Some _ => false
      end
  | (_, _, Some _) => false
  end.

(** The requests to [POST /users] that need no credentials: authentication
    is disabled, or the server has no administrator and the new user is
    one. *)
Definition exempt {St : Type} (srv : Server.impl St) (s : St) (h : Handler)
    (newUser : userJSON) : bool :=
  negb (AuthenticationEnabled h)
  || (negb (srv Server.AdminUserExists s).1 && Admin newUser).

Definition malformed_body_request : http.Request :=
  request "POST" [] [("Authorization", "Basic")] (inr (json.JArray [])).

Definition delete_shard_request : http.Request :=
  request "DELETE" [(":db", "metrics"); (":id", "7")] [] (inl (Errorf "EOF")).

Definition update_password_request : http.Request :=
  request "PUT" [(":user", "bob")] []
    (inr (json.JObject [("password", json.JString "secret")])).

Definition empty_object_request : http.Request :=
  anonymous_request "POST" (inr (json.JObject [])).

Definition colon_url_request : http.Request :=
  anonymous_request "POST" (inr (json.JObject [("url", json.JString "://node")])).

(** ** Further definitions for the properties of the whole handler *)

(** An Authorization value with any scheme: the scheme, a space, and the
    Base64 form of the username and the password joined by a colon. *)
Definition Authorization (scheme username password : string) : string :=
  scheme +:+ " " +:+ base64.EncodeToString (username +:+ ":" +:+ password).

Definition bearer_request : http.Request :=
  request "GET" [("p", "ignored")] [("Authorization", Authorization "Bearer" "alice" "s3cret")]
    (inl (Errorf "EOF")).

Definition both_request : http.Request :=
  request "GET" [("u", "root"); ("p", "toor")] [("Authorization", "Basic")]
    (inl (Errorf "EOF")).

(** What holds of every way a program can go, whatever the server
    answers: [P] of the calls made and of the value returned, [Q] of the
    calls made before a panic.  [made] is the calls made so far. *)
Fixpoint traced {A : Type} (P : list Server.call -> A -> Prop)
    (Q : list Server.call -> Prop) (made : list Server.call) (p : Prog A) : Prop :=
  match p with
  | Ret a => P made a
  | Do c k => ∀ r, traced P Q (made ++ [c]) (k r)
  | Panic => Q made
  end.

(** The status codes that the handlers write. *)
Definition vocabulary : list Z := [200; 201; 204; 400; 401; 404; 409; 500]%Z.

(** The calls that only authenticate: they read the users. *)
Definition authenticating (c : Server.call) : bool :=
  match c with
  | Server.AuthenticatedUser _ _ | Server.AdminUserExists => true
  | _ => false
  end.

(** The calls that change the server. *)
Definition mutating (c : Server.call) : bool :=
  match c with
  | Server.CreateUser _ _ _ | Server.UpdateUser _ _ | Server.DeleteUser _
  | Server.CreateDatabase _ | Server.DeleteDatabase _
  | Server.CreateRetentionPolicy _ _ | Server.UpdateRetentionPolicy _ _ _
  | Server.DeleteRetentionPolicy _ _
  | Server.CreateDataNode _ | Server.DeleteDataNode _ => true
  | _ => false
  end.

(** The headers that [ServeHTTP] adds to every response. *)
Definition standard_headers (h : Handler) : list (string * string) :=
  [ ("Access-Control-Allow-Origin", "*");
    ("Access-Control-Max-Age", "2592000");
    ("Access-Control-Allow-Methods", "GET, POST, PUT, DELETE");
    ("Access-Control-Allow-Headers", "Origin, X-Requested-With, Content-Type, Accept");
    ("X-Influxdb-Version", Version h) ].

Definition no_query (q : string) : option error := None.

Definition create_metrics_request : http.Request :=
  root_request "POST" (inr (json.JObject [("name", json.JString "metrics")])).

(** The statuses of the error responses: 401 only when authentication is
    enabled. *)
Definition error_code (authentication : bool) (code : Z) : bool :=
  (code =? 400)%Z || (code =? 404)%Z || (code =? 409)%Z || (code =? 500)%Z
  || (authentication && (code =? 401)%Z).

(** The ways in which a handler answers on the writer [w] it was given: it
    writes nothing, an error through [h.error], a status alone, a JSON
    document, or the status 201 and then a JSON document. *)
Inductive answer (allowed : Z -> bool) (w : http.ResponseWriter)
    : http.ResponseWriter -> Prop :=
| answer_nothing : answer allowed w w
| answer_error (msg : string) (code : Z) :
    allowed code = true -> answer allowed w (Handler_error w msg code)
| answer_status (code : Z) :
    code = 201%Z ∨ code = 204%Z -> answer allowed w (http.WriteHeader w code)
| answer_json (v : json.Value) :
    answer allowed w (Encode (http.AddHeader w "Content-Type" "application/json") v)
| answer_created (v : json.Value) :
    answer allowed w
      (Encode (http.AddHeader (http.WriteHeader w 201%Z) "Content-Type" "application/json") v).

(** How many of the calls made change the server. *)
Definition mutations (cs : list Server.call) : nat :=
  sum_list (map (fun c => if mutating c then 1 else 0) cs).

(** The writer after [ServeHTTP] has added its headers. *)
Definition with_standard_headers (h : Handler) (w : http.ResponseWriter)
    : http.ResponseWriter :=
  foldl (fun w kv => http.AddHeader w kv.1 kv.2) w (standard_headers h).

Definition options_request : http.Request :=
  request "OPTIONS" [] [] (inl (Errorf "EOF")).

(** The status that a handler writes for the error, or [nil], that the
    server returned: [success] without error, 404 for the errors that
    mean not found, 409 for those that mean a conflict, 500 for any
    other. *)
Definition status_for (success : Z) (not_found conflict : list error)
    (err : option error) : Z :=
  match err with
  | None => success
  | Some e =>
      if bool_decide (e ∈ not_found) then 404%Z
      else if bool_decide (e ∈ conflict) then 409%Z
      else 500%Z
  end.

(** [strconv.FormatUint(n, 10)], the way the encoder prints a [uint64]. *)
Definition FormatUint (n : N) : string := NilEmpty.string_of_uint (N.to_uint n).

(** The strings of decimal digits. *)
Fixpoint all_digits (s : string) : bool :=
  match s with
  | EmptyString => true
  | String c s' =>
      match strconv.digit c with
      | Some _ => all_digits s'
      | None => false
      end
  end.

(** What [serveUsers] writes for a user: the name, and the admin flag when
    it is set. *)
Definition listed (u : User) : json.Value :=
  json.JObject (("name", json.JString (User_Name u))
                :: if User_Admin u then [("admin", json.JBool true)] else []).

Definition node_request : http.Request :=
  root_request "POST" (inr (json.JObject [("url", json.JString "http://node1:8086")])).

Definition delete_node_request (id : string) : http.Request :=
  request "DELETE" [(":id", id)] [] (inl (Errorf "EOF")).

Definition delete_database_request : http.Request :=
  request "DELETE" [(":name", "metrics")] [] (inl (Errorf "EOF")).

(** A server whose only user has an empty name and an empty password. *)
Definition nameless : MemServer.state :=
  MemServer.with_users MemServer.empty [("", "", false)].

(** A server with the database [metrics]. *)
Definition with_metrics : MemServer.state :=
  MemServer.with_databases rooted ["metrics"].

(** A server with one data node. *)
Definition with_node : MemServer.state :=
  MemServer.with_nodes rooted
    [{| DataNode_ID := 1; DataNode_URL := {| url.URL_String := "http://node1:8086" |} |}].

(** The three ways of the spec in which an [Authorization] value is
    malformed, for any value, the empty one included. *)
Definition ill_formed (auth : string) : Prop :=
  length (strings.Split auth " ") ≠ 2
  ∨ base64.DecodeString (nth 1 (strings.Split auth " ") "") = None
  ∨ ∃ bs, base64.DecodeString (nth 1 (strings.Split auth " ") "") = Some bs
          ∧ length (strings.Split bs ":") ≠ 2.

(** A request whose [Authorization] header is sent with an empty value. *)
Definition empty_header_request : http.Request :=
  request "GET" [] [("Authorization", "")] (inl (Errorf "EOF")).
(** * Properties *)

(** ** Base64 *)

Lemma list_ind3 {A : Type} (P : list A -> Prop) :
  P [] -> (∀ a, P [a]) -> (∀ a b, P [a; b]) ->
  (∀ a b c l, P l -> P (a :: b :: c :: l)) ->
  ∀ l, P l.
Proof.
  intros H0 H1 H2 H3 l.
  enough (P l ∧ (∀ a, P (a :: l)) ∧ (∀ a b, P (a :: b :: l))) by tauto.
  induction l as [|x l (IH0 & IH1 & IH2)]; [by auto |].
  split; [apply IH1 |]. split; [intros; apply IH2 |].
  intros a b. by apply H3.
Qed.

Lemma encodeChar_alphabet (v : N) :
  (v < 64)%N ->
  base64.decodeMap (base64.encodeChar v) = Some v
  ∧ base64.is_newline (base64.encodeChar v) = false
  ∧ Ascii.eqb (base64.encodeChar v) " " = false.
Proof.
  intros Hv. destruct v as [|p]; [by vm_compute |].
  do 6 (destruct p as [p|p|]; try (by vm_compute); try lia).
Qed.

Lemma decodeMap_encodeChar (v : N) :
  (v < 64)%N -> base64.decodeMap (base64.encodeChar v) = Some v.
Proof. intros Hv. by apply encodeChar_alphabet. Qed.

Ltac byte_arith :=
  repeat match goal with
         | a : ascii |- _ =>
             lazymatch goal with
             | _ : (N_of_ascii a < 256)%N |- _ => fail
             | _ => pose proof (N_ascii_bounded a)
             end
         end;
  zify; Z.to_euclidean_division_equations; lia.

Lemma sextets_bounded (a b c : ascii) :
  let '(s0, s1, s2, s3) := base64.sextets (N_of_ascii a) (N_of_ascii b) (N_of_ascii c) in
  (s0 < 64 ∧ s1 < 64 ∧ s2 < 64 ∧ s3 < 64)%N.
Proof. unfold base64.sextets. repeat split; byte_arith. Qed.

Lemma byte0_sextets (a : ascii) (b : N) :
  (b < 256)%N ->
  base64.byte0 (N_of_ascii a / 4) ((N_of_ascii a mod 4) * 16 + b / 16) = a.
Proof.
  intros Hb. unfold base64.byte0.
  rewrite <- (ascii_N_embedding a) at 3. f_equal. byte_arith.
Qed.

Lemma byte1_sextets (a b : ascii) (c : N) :
  (c < 256)%N ->
  base64.byte1 ((N_of_ascii a mod 4) * 16 + N_of_ascii b / 16)
    ((N_of_ascii b mod 16) * 4 + c / 64) = b.
Proof.
  intros Hc. unfold base64.byte1.
  rewrite <- (ascii_N_embedding b) at 3. f_equal. byte_arith.
Qed.

Lemma byte2_sextets (b c : ascii) :
  base64.byte2 ((N_of_ascii b mod 16) * 4 + N_of_ascii c / 64) (N_of_ascii c mod 64) = c.
Proof.
  unfold base64.byte2.
  rewrite <- (ascii_N_embedding c) at 3. f_equal. byte_arith.
Qed.

Lemma decode_padding1 (a : ascii) :
  base64.decode (base64.encode [a]) = Some [a].
Proof.
  pose proof (sextets_bounded a zero zero) as Hs.
  cbn [base64.encode]. unfold base64.sextets in *.
  change (N_of_ascii zero) with 0%N in Hs. destruct Hs as (H0 & H1 & _).
  cbn [base64.decode].
  rewrite !decodeMap_encodeChar by assumption.
  change (base64.decodeMap base64.padChar) with (@None N).
  change (Ascii.eqb base64.padChar base64.padChar) with true. cbn [andb].
  by rewrite byte0_sextets.
Qed.

Lemma decode_padding2 (a b : ascii) :
  base64.decode (base64.encode [a; b]) = Some [a; b].
Proof.
  pose proof (sextets_bounded a b zero) as Hs.
  cbn [base64.encode]. unfold base64.sextets in *.
  change (N_of_ascii zero) with 0%N in Hs. destruct Hs as (H0 & H1 & H2 & _).
  cbn [base64.decode].
  rewrite !decodeMap_encodeChar by assumption.
  change (base64.decodeMap base64.padChar) with (@None N).
  change (Ascii.eqb base64.padChar base64.padChar) with true.
  rewrite byte0_sextets by apply N_ascii_bounded.
  by rewrite byte1_sextets.
Qed.

(** Decoding undoes encoding. *)
Lemma decode_encode (src : list ascii) :
  base64.decode (base64.encode src) = Some src.
Proof.
  induction src as [|a|a b|a b c l IH] using list_ind3.
  - reflexivity.
  - apply decode_padding1.
  - apply decode_padding2.
  - pose proof (sextets_bounded a b c) as Hs.
    cbn [base64.encode]. unfold base64.sextets in *.
    destruct Hs as (H0 & H1 & H2 & H3).
    cbn [base64.decode].
    rewrite !decodeMap_encodeChar by assumption.
    rewrite IH.
    rewrite byte0_sextets by apply N_ascii_bounded.
    rewrite byte1_sextets by apply N_ascii_bounded.
    by rewrite byte2_sextets.
Qed.

(** The encoder writes letters of the alphabet and padding: no line
    break and no space. *)
Lemma encode_plain (src : list ascii) :
  Forall (fun c => base64.is_newline c = false ∧ Ascii.eqb c " " = false)
    (base64.encode src).
Proof.
  induction src as [|a|a b|a b c l IH] using list_ind3.
  - constructor.
  - pose proof (sextets_bounded a zero zero) as Hs.
    cbn [base64.encode]. unfold base64.sextets in *.
    change (N_of_ascii zero) with 0%N in Hs. destruct Hs as (H0 & H1 & _).
    repeat constructor; try (by apply encodeChar_alphabet).
  - pose proof (sextets_bounded a b zero) as Hs.
    cbn [base64.encode]. unfold base64.sextets in *.
    change (N_of_ascii zero) with 0%N in Hs. destruct Hs as (H0 & H1 & H2 & _).
    repeat constructor; try (by apply encodeChar_alphabet).
  - pose proof (sextets_bounded a b c) as Hs.
    cbn [base64.encode]. unfold base64.sextets in *.
    destruct Hs as (H0 & H1 & H2 & H3).
    repeat (constructor; [split; by apply encodeChar_alphabet |]). exact IH.
Qed.

Lemma DecodeString_EncodeToString (src : string) :
  base64.DecodeString (base64.EncodeToString src) = Some src.
Proof.
  unfold base64.DecodeString, base64.EncodeToString.
  rewrite list_ascii_of_string_of_list_ascii.
  assert (filter (fun c => base64.is_newline c = false)
            (base64.encode (list_ascii_of_string src))
          = base64.encode (list_ascii_of_string src)) as ->.
  { pose proof (encode_plain (list_ascii_of_string src)) as Hp.
    induction Hp as [|c l [Hc _] _ IH]; [reflexivity |].
    rewrite filter_cons_True by exact Hc. by rewrite IH. }
  rewrite decode_encode. by rewrite string_of_list_ascii_of_string.
Qed.

(** ** Splitting *)

Lemma Split_free (s : string) (c : ascii) :
  strings.free_of c s = true -> strings.Split s c = [s].
Proof.
  induction s as [|x s IH]; [reflexivity |].
  cbn [strings.free_of strings.Split]. intros [Hx Hs]%andb_prop.
  apply negb_true_iff in Hx. rewrite Hx. by rewrite IH.
Qed.

Lemma Split_app (a b : string) (c : ascii) :
  strings.free_of c a = true ->
  strings.Split (a +:+ String c b) c = a :: strings.Split b c.
Proof.
  induction a as [|x a IH].
  - intros _. change ("" +:+ String c b) with (String c b).
    cbn [strings.Split]. by rewrite Ascii.eqb_refl.
  - cbn [strings.free_of]. intros [Hx Hs]%andb_prop.
    apply negb_true_iff in Hx.
    change (String x a +:+ String c b) with (String x (a +:+ String c b)).
    cbn [strings.Split]. rewrite Hx. by rewrite IH.
Qed.

Lemma EncodeToString_free (src : string) :
  strings.free_of " " (base64.EncodeToString src) = true.
Proof.
  unfold base64.EncodeToString.
  pose proof (encode_plain (list_ascii_of_string src)) as Hp.
  induction Hp as [|c l [_ Hc] _ IH]; [reflexivity |].
  cbn [string_of_list_ascii strings.free_of]. rewrite Hc. exact IH.
Qed.

(** ** The credential extractor *)

Lemma Split_Basic (username password : string) :
  strings.Split (Basic username password) " "
  = ["Basic"; base64.EncodeToString (username +:+ ":" +:+ password)].
Proof.
  unfold Basic.
  change ("Basic " +:+ ?e) with ("Basic" +:+ String " " e).
  rewrite Split_app by reflexivity.
  by rewrite Split_free by apply EncodeToString_free.
Qed.

Lemma Split_pair (username password : string) :
  strings.free_of ":" username = true ->
  strings.free_of ":" password = true ->
  strings.Split (username +:+ ":" +:+ password) ":" = [username; password].
Proof.
  intros Hu Hp. change (":" +:+ password) with (String ":" password).
  rewrite Split_app by exact Hu. by rewrite Split_free.
Qed.

(** Without both query parameters the extractor reads the header. *)
Lemma getUsernameAndPassword_header (r : http.Request) :
  query_credentials r = false ->
  getUsernameAndPassword r =
    let auth := http.Header_Get (http.Header r) "Authorization" in
    if String.eqb auth "" then ("", "", None)
    else
      let fields := strings.Split auth " " in
      if negb (length fields =? 2)%nat
      then ("", "", Some (Errorf "invalid Basic Authentication header"))
      else
        match base64.DecodeString (nth 1 fields "") with
        | None => ("", "", Some (Errorf "invalid Base64 encoding"))
        | Some bs =>
            let fields := strings.Split bs ":" in
            if negb (length fields =? 2)%nat
            then ("", "", Some (Errorf "invalid Basic Authentication value"))
            else (nth 0 fields "", nth 1 fields "", None)
        end.
Proof.
  unfold query_credentials, getUsernameAndPassword. cbv zeta. by intros ->.
Qed.

(** C8 (amended): for a username and a password without a colon, the
    Basic Authentication header that encodes the pair, on a request that
    does not carry both query parameters [u] and [p], gives back exactly
    that username and that password. *)
Theorem C8_basic_authentication_roundtrip (r : http.Request) (username password : string) :
  query_credentials r = false ->
  http.Header_Get (http.Header r) "Authorization" = Basic username password ->
  strings.free_of ":" username = true ->
  strings.free_of ":" password = true ->
  getUsernameAndPassword r = (username, password, None).
Proof.
  intros Hq Hauth Hu Hp.
  rewrite getUsernameAndPassword_header by exact Hq. cbv zeta.
  rewrite Hauth, Split_Basic.
  change (Basic username password =? "")%string with false.
  cbn [length Nat.eqb negb nth].
  rewrite DecodeString_EncodeToString, Split_pair by assumption.
  reflexivity.
Qed.

Lemma C8_witness :
  getUsernameAndPassword alice_request = ("alice", "s3cret/+ ", None).
Proof.
  apply (C8_basic_authentication_roundtrip alice_request "alice" "s3cret/+ ");
    by vm_compute.
Defined.

(** A password may hold a colon; its header is well formed and encodes the
    pair, and the extractor refuses it. *)
Lemma C8_counterexample :
  query_credentials colon_request = false
  ∧ http.Header_Get (http.Header colon_request) "Authorization" = Basic "alice" "pass:word"
  ∧ getUsernameAndPassword colon_request
    = ("", "", Some (Errorf "invalid Basic Authentication value"))
  ∧ getUsernameAndPassword colon_request ≠ ("alice", "pass:word", None).
Proof. by vm_compute. Qed.

(** C9: when exactly one of the query parameters [u] and [p] is not empty
    and the request has no Authorization header, the extractor returns an
    empty username and an empty password without an error. *)
Theorem C9_partial_query_credentials_ignored (r : http.Request) :
  (url.Get (http.Query r) "u" ≠ "" ∧ url.Get (http.Query r) "p" = "")
  ∨ (url.Get (http.Query r) "u" = "" ∧ url.Get (http.Query r) "p" ≠ "") ->
  http.Header r !! "Authorization" = None ->
  getUsernameAndPassword r = ("", "", None).
Proof.
  intros Hone Hnone.
  rewrite getUsernameAndPassword_header.
  - unfold http.Header_Get. by rewrite Hnone.
  - unfold query_credentials.
    destruct Hone as [[_ ->] | [-> _]]; [by rewrite andb_false_r | reflexivity].
Qed.

Lemma C9_witness :
  getUsernameAndPassword username_only_request = ("", "", None).
Proof.
  apply (C9_partial_query_credentials_ignored username_only_request).
  - left. by vm_compute.
  - by vm_compute.
Defined.

(** ** Responses *)

Arguments Handler_error : simpl never.

Lemma status_Handler_error (w : http.ResponseWriter) (msg : string) (code : Z) :
  http.written w = None -> http.status (Handler_error w msg code) = code.
Proof.
  intros Hw. unfold Handler_error, http.Error, http.Write, http.WriteHeader, http.status.
  cbn. rewrite Hw. cbn. by destruct (http.bodyAllowedForStatus code).
Qed.

Lemma run_call {St A : Type} (srv : Server.impl St) (c : Server.call)
    (k : Server.result c -> Prog A) (s : St) :
  run srv (call c ≫= k) s = after c (run srv (k (srv c s).1) (srv c s).2).
Proof.
  unfold after. cbn. destruct (srv c s) as [res s1]. cbn.
  by destruct (run srv (k res) s1) as [[a s2] cs].
Qed.

(** One step of a run: the next call to the server. *)
Ltac run_step :=
  match goal with
  | |- context [run ?srv (@mbind _ _ _ _ ?k (call ?c)) ?s] =>
      let H := fresh in
      pose proof (run_call srv c k s) as H;
      cbn [Server.result] in H; rewrite H; clear H
  end.

(** ** The authentication gate *)

(** C2: a handler behind the gate.  With authentication disabled the
    wrapped handler runs with a nil user and nothing else happens: no
    credentials are read and the server is not asked to authenticate.
    With authentication enabled, an error of the credential extractor is
    answered with 401 and its message, and the wrapped handler does not
    run; otherwise the server authenticates the extracted pair: its error
    is answered with 401 and the wrapped handler does not run, and on
    success the wrapped handler runs with the user the server resolved. *)
Theorem C2_authentication_gate {St : Type} (srv : Server.impl St) (s : St)
    (h : Handler) (fn : UserHandler) (w : http.ResponseWriter) (r : http.Request) :
  (AuthenticationEnabled h = false ->
   makeAuthenticationHandler h fn w r = fn w r None
   ∧ run srv (makeAuthenticationHandler h fn w r) s = run srv (fn w r None) s)
  ∧ (AuthenticationEnabled h = true ->
     ∀ username password e,
       getUsernameAndPassword r = (username, password, Some e) ->
       run srv (makeAuthenticationHandler h fn w r) s
       = (Some (Handler_error w (Error e) http.StatusUnauthorized), s, [])
       ∧ (http.written w = None ->
          status_of (run srv (makeAuthenticationHandler h fn w r) s) = Some 401%Z))
  ∧ (AuthenticationEnabled h = true ->
     ∀ username password usr e s1,
       getUsernameAndPassword r = (username, password, None) ->
       srv (Server.AuthenticatedUser username password) s = ((usr, Some e), s1) ->
       run srv (makeAuthenticationHandler h fn w r) s
       = (Some (Handler_error w (Error e) http.StatusUnauthorized), s1,
          [Server.AuthenticatedUser username password])
       ∧ (http.written w = None ->
          status_of (run srv (makeAuthenticationHandler h fn w r) s) = Some 401%Z))
  ∧ (AuthenticationEnabled h = true ->
     ∀ username password usr s1,
       getUsernameAndPassword r = (username, password, None) ->
       srv (Server.AuthenticatedUser username password) s = ((usr, None), s1) ->
       run srv (makeAuthenticationHandler h fn w r) s
       = after (Server.AuthenticatedUser username password) (run srv (fn w r usr) s1)).
Proof.
  unfold makeAuthenticationHandler. split; [| split; [| split]].
  - by intros ->.
  - intros -> username password e ->. split; [reflexivity |].
    intros Hw. unfold status_of. cbn. by rewrite status_Handler_error.
  - intros -> username password usr e s1 -> Hsrv. cbv beta iota zeta.
    run_step. rewrite Hsrv.
    split; [reflexivity |].
    intros Hw. unfold status_of. cbn. by rewrite status_Handler_error.
  - intros -> username password usr s1 -> Hsrv. cbv beta iota zeta.
    run_step. by rewrite Hsrv.
Qed.

Lemma C2_witness :
  run MemServer.server
    (makeAuthenticationHandler open serveDatabases http.NewResponseWriter
       (anonymous_request "GET" (inl (Errorf "EOF")))) MemServer.empty
  = run MemServer.server
      (serveDatabases http.NewResponseWriter (anonymous_request "GET" (inl (Errorf "EOF"))) None)
      MemServer.empty
  ∧ status_of (run MemServer.server
                 (makeAuthenticationHandler secured serveDatabases http.NewResponseWriter
                    one_token_request) rooted) = Some 401%Z
  ∧ status_of (run MemServer.server
                 (makeAuthenticationHandler secured serveDatabases http.NewResponseWriter
                    (anonymous_request "GET" (inl (Errorf "EOF")))) rooted) = Some 401%Z
  ∧ run MemServer.server
      (makeAuthenticationHandler secured serveDatabases http.NewResponseWriter
         (root_request "GET" (inl (Errorf "EOF")))) rooted
    = after (Server.AuthenticatedUser "root" "toor")
        (run MemServer.server
           (serveDatabases http.NewResponseWriter (root_request "GET" (inl (Errorf "EOF")))
              (Some {| User_Name := "root"; User_Admin := true |})) rooted).
Proof.
  split; [| split; [| split]].
  - apply (C2_authentication_gate MemServer.server MemServer.empty open serveDatabases
             http.NewResponseWriter (anonymous_request "GET" (inl (Errorf "EOF")))).
    reflexivity.
  - apply (proj1 (proj2 (C2_authentication_gate MemServer.server rooted secured serveDatabases
                           http.NewResponseWriter one_token_request)) eq_refl
             "" "" (Errorf "invalid Basic Authentication header")); by vm_compute.
  - apply (proj1 (proj2 (proj2 (C2_authentication_gate MemServer.server rooted secured
                                  serveDatabases http.NewResponseWriter
                                  (anonymous_request "GET" (inl (Errorf "EOF"))))))
             eq_refl "" "" None (Errorf "invalid username or password") rooted); by vm_compute.
  - apply (proj2 (proj2 (proj2 (C2_authentication_gate MemServer.server rooted secured
                                  serveDatabases http.NewResponseWriter
                                  (root_request "GET" (inl (Errorf "EOF"))))))
             eq_refl "root" "toor"); by vm_compute.
Defined.

(** A malformed header makes the extractor fail. *)
Lemma getUsernameAndPassword_malformed (r : http.Request) :
  query_credentials r = false ->
  malformed (http.Header_Get (http.Header r) "Authorization") ->
  ∃ e, getUsernameAndPassword r = ("", "", Some e).
Proof.
  intros Hq [Hne Hbad]. rewrite getUsernameAndPassword_header by exact Hq. cbv zeta.
  destruct (String.eqb_spec (http.Header_Get (http.Header r) "Authorization") "") as [|_];
    [done |].
  destruct (Nat.eqb_spec (length (strings.Split
              (http.Header_Get (http.Header r) "Authorization") " ")) 2) as [Hlen|Hlen];
    cbn [negb]; [| by eauto].
  destruct Hbad as [Hbad | [Hbad | (bs & Hbs & Hbad)]]; [done | by rewrite Hbad; eauto |].
  rewrite Hbs.
  destruct (Nat.eqb_spec (length (strings.Split bs ":")) 2); [done | by cbn; eauto].
Qed.

(** C7 (amended): with authentication enabled, a request to a handler
    behind the gate whose Authorization header has a value that is not
    empty and is malformed (not two tokens around a space, a second token
    that is not standard Base64, or a decoded value that is not two fields
    around a colon), and which does not carry both query parameters [u] and
    [p], makes the credential extractor return an error; the gate answers
    401, and so not 500, the wrapped handler does not run and the server is
    not called. *)
Theorem C7_malformed_header_unauthorized {St : Type} (srv : Server.impl St) (s : St)
    (h : Handler) (fn : UserHandler) (w : http.ResponseWriter) (r : http.Request) :
  AuthenticationEnabled h = true ->
  query_credentials r = false ->
  malformed (http.Header_Get (http.Header r) "Authorization") ->
  http.written w = None ->
  ∃ e, getUsernameAndPassword r = ("", "", Some e)
       ∧ run srv (makeAuthenticationHandler h fn w r) s
         = (Some (Handler_error w (Error e) http.StatusUnauthorized), s, [])
       ∧ status_of (run srv (makeAuthenticationHandler h fn w r) s) = Some 401%Z
       ∧ status_of (run srv (makeAuthenticationHandler h fn w r) s) ≠ Some 500%Z.
Proof.
  intros Hauth Hq Hbad Hw.
  destruct (getUsernameAndPassword_malformed r Hq Hbad) as [e He].
  exists e. split; [exact He |].
  assert (run srv (makeAuthenticationHandler h fn w r) s
          = (Some (Handler_error w (Error e) http.StatusUnauthorized), s, [])) as Hrun.
  { unfold makeAuthenticationHandler. by rewrite Hauth, He. }
  rewrite Hrun. unfold status_of. cbn. rewrite status_Handler_error by exact Hw.
  by repeat split.
Qed.

Lemma C7_witness :
  ∃ e, getUsernameAndPassword one_token_request = ("", "", Some e)
       ∧ run MemServer.server
           (makeAuthenticationHandler secured serveDatabases http.NewResponseWriter
              one_token_request) rooted
         = (Some (Handler_error http.NewResponseWriter (Error e) http.StatusUnauthorized),
            rooted, [])
       ∧ status_of (run MemServer.server
                      (makeAuthenticationHandler secured serveDatabases
                         http.NewResponseWriter one_token_request) rooted) = Some 401%Z
       ∧ status_of (run MemServer.server
                      (makeAuthenticationHandler secured serveDatabases
                         http.NewResponseWriter one_token_request) rooted) ≠ Some 500%Z.
Proof.
  apply (C7_malformed_header_unauthorized MemServer.server rooted secured serveDatabases
           http.NewResponseWriter one_token_request).
  - reflexivity.
  - by vm_compute.
  - split; [by vm_compute |]. left. by vm_compute.
  - reflexivity.
Defined.

(** An Authorization header that is sent with an empty value is not two
    tokens around a space.  The extractor takes it for an absent header:
    it returns an empty username and password and no error.  The gate then
    asks the server to authenticate the empty pair: the 401 of a server
    that refuses it comes from the server, not from the extractor, and on
    a server that accepts it the wrapped handler runs and the answer is
    200. *)
Lemma C7_counterexample :
  http.Header empty_header_request !! "Authorization" = Some [""]
  ∧ ill_formed (http.Header_Get (http.Header empty_header_request) "Authorization")
  ∧ AuthenticationEnabled secured = true
  ∧ query_credentials empty_header_request = false
  ∧ getUsernameAndPassword empty_header_request = ("", "", None)
  ∧ outcome (run MemServer.server
               (makeAuthenticationHandler secured servePing http.NewResponseWriter
                  empty_header_request) rooted)
    = (Some 401%Z, [Server.AuthenticatedUser "" ""])
  ∧ outcome (run MemServer.server
               (makeAuthenticationHandler secured servePing http.NewResponseWriter
                  empty_header_request) nameless)
    = (Some 200%Z, [Server.AuthenticatedUser "" ""]).
Proof.
  split; [reflexivity |]. split; [left; vm_compute; lia |].
  repeat split; vm_compute; reflexivity.
Qed.

(** ** Creating a user *)

Lemma run_Do {St A : Type} (srv : Server.impl St) (c : Server.call)
    (k : Server.result c -> Prog A) (s : St) :
  run srv (Do c k) s = after c (run srv (k (srv c s).1) (srv c s).2).
Proof.
  unfold after. cbn. destruct (srv c s) as [res s1]. cbn.
  by destruct (run srv (k res) s1) as [[a s2] cs].
Qed.

Ltac run_all :=
  unfold call, mbind, Prog_bind; cbn [bind];
  repeat (rewrite run_Do;
          match goal with
          | |- context [?srv ?c ?s] =>
              lazymatch type of srv with
              | Server.impl _ =>
                  let res := fresh "res" in
                  let s' := fresh "s" in
                  let E := fresh "E" in
                  destruct (srv c s) as [res s'] eqn:E;
                  cbn [Server.result] in res; cbn [fst snd bind] in *
              end
          end).

Ltac run_cases :=
  repeat (run_all;
          match goal with
          | |- context [match ?x with _ => _ end] =>
              lazymatch x with
              | run _ _ _ => fail
              | _ => destruct x eqn:?
              end
          | |- context [if ?x then _ else _] => destruct x eqn:?
          end;
          cbn [fst snd orb andb negb] in *).

Ltac run_finish :=
  unfold status_of, returned, calls, after, unauthenticated_create in *;
  cbn [run fst snd fmap option_fmap option_map forallb existsb negb andb orb
       Server.is_CreateUser Server.is_AuthenticatedUser] in *;
  repeat match goal with b : bool |- _ => destruct b end;
  repeat split; intros; try discriminate; try done;
  try (by rewrite status_Handler_error);
  try (by repeat constructor).

(** C1 (amended): for a create-user request whose body decodes, the
    credential check is skipped, and the server is asked to create the user
    without being asked to authenticate anyone, if and only if
    authentication is disabled, or no administrator exists and the user
    being created is flagged as admin.  In every other combination
    (authentication enabled, and an administrator exists or the new user is
    not an admin) valid credentials must be presented: without them the
    response is 401 and the server is never asked to create the user; with
    them it is asked to create the user that the body describes. *)
Theorem C1_create_user_policy {St : Type} (srv : Server.impl St) (s : St)
    (h : Handler) (w : http.ResponseWriter) (r : http.Request) (newUser : userJSON) :
  json.Decode "influxdb.userJSON" userJSON_field (http.Body r) userJSON_zero = inr newUser ->
  let out := run srv (serveCreateUser h w r) s in
  (unauthenticated_create (calls out) = true <-> exempt srv s h newUser = true)
  ∧ (exempt srv s h newUser = false ->
     authenticates srv (srv Server.AdminUserExists s).2 r = false ->
     existsb Server.is_CreateUser (calls out) = false
     ∧ (http.written w = None -> status_of out = Some 401%Z))
  ∧ (exempt srv s h newUser = false ->
     authenticates srv (srv Server.AdminUserExists s).2 r = true ->
     Server.CreateUser (Name newUser) (Password newUser) (Admin newUser) ∈ calls out)
  ∧ (exempt srv s h newUser = true ->
     calls out
     = (if AuthenticationEnabled h then [Server.AdminUserExists] else [])
       ++ [Server.CreateUser (Name newUser) (Password newUser) (Admin newUser)]).
Proof.
  intros Hdec. unfold serveCreateUser, exempt, authenticates. rewrite Hdec. cbv zeta.
  destruct (AuthenticationEnabled h); cbn [negb orb].
  - run_cases; destruct (Admin newUser); run_finish.
  - run_cases; run_finish.
Qed.

Lemma C1_witness :
  existsb Server.is_CreateUser
    (calls (run MemServer.server
              (serveCreateUser secured http.NewResponseWriter
                 (anonymous_request "POST" (user_body "eve" "pw" true))) rooted)) = false
  ∧ status_of (run MemServer.server
                 (serveCreateUser secured http.NewResponseWriter
                    (anonymous_request "POST" (user_body "eve" "pw" true))) rooted)
    = Some 401%Z.
Proof.
  destruct (C1_create_user_policy MemServer.server rooted secured http.NewResponseWriter
              (anonymous_request "POST" (user_body "eve" "pw" true))
              {| Name := "eve"; Password := "pw"; Admin := true |})
    as (_ & Hdenied & _); [by vm_compute |].
  destruct Hdenied as [Hnone Hstatus]; [by vm_compute | by vm_compute |].
  split; [exact Hnone | by apply Hstatus].
Defined.

(** With authentication disabled the check is skipped as well: the user
    is created for a request without credentials, although authentication
    is not enabled and the new user is no admin. *)
Lemma C1_counterexample :
  json.Decode "influxdb.userJSON" userJSON_field
    (http.Body (anonymous_request "POST" (user_body "bob" "pw" false))) userJSON_zero
  = inr {| Name := "bob"; Password := "pw"; Admin := false |}
  ∧ calls (run MemServer.server
             (serveCreateUser open http.NewResponseWriter
                (anonymous_request "POST" (user_body "bob" "pw" false))) MemServer.empty)
    = [Server.CreateUser "bob" "pw" false]
  ∧ unauthenticated_create
      (calls (run MemServer.server
                (serveCreateUser open http.NewResponseWriter
                   (anonymous_request "POST" (user_body "bob" "pw" false))) MemServer.empty))
    = true
  ∧ ¬ (AuthenticationEnabled open = true
       ∧ (MemServer.server Server.AdminUserExists MemServer.empty).1 = false
       ∧ Admin {| Name := "bob"; Password := "pw"; Admin := false |} = true).
Proof.
  split; [by vm_compute |]. split; [by vm_compute |]. split; [by vm_compute |].
  intros [Hon _]. discriminate Hon.
Qed.

(** The bootstrap of the spec: on a server without users the first
    administrator is created without credentials; a second request of the
    same kind is then answered with 401 and creates nobody. *)
Example bootstrap :
  let first := run MemServer.server
                 (serveCreateUser secured http.NewResponseWriter
                    (anonymous_request "POST" (user_body "root" "toor" true)))
                 MemServer.empty in
  calls first = [Server.AdminUserExists; Server.CreateUser "root" "toor" true]
  ∧ first.1.2 = rooted
  ∧ outcome (run MemServer.server
               (serveCreateUser secured http.NewResponseWriter
                  (anonymous_request "POST" (user_body "eve" "pw" true))) first.1.2)
    = (Some 401%Z, [Server.AdminUserExists; Server.AuthenticatedUser "" ""]).
Proof. by vm_compute. Qed.

(** C10: a create-user request whose body does not decode into the wire
    form of a user is answered with 400 and no credential check is made,
    whether authentication is enabled or not and whatever credentials the
    request carries: the handler returns before it calls the server. *)
Theorem C10_create_user_decodes_first {St : Type} (srv : Server.impl St) (s : St)
    (h : Handler) (w : http.ResponseWriter) (r : http.Request) (e : error) :
  json.Decode "influxdb.userJSON" userJSON_field (http.Body r) userJSON_zero = inl e ->
  serveCreateUser h w r = Ret (Handler_error w (Error e) http.StatusBadRequest)
  ∧ run srv (serveCreateUser h w r) s
    = (Some (Handler_error w (Error e) http.StatusBadRequest), s, [])
  ∧ (http.written w = None -> status_of (run srv (serveCreateUser h w r) s) = Some 400%Z).
Proof.
  intros Hdec. unfold serveCreateUser. rewrite Hdec. repeat split.
  intros Hw. unfold status_of. cbn. by rewrite status_Handler_error.
Qed.

Lemma C10_witness :
  AuthenticationEnabled secured = true
  ∧ (∃ e, getUsernameAndPassword malformed_body_request = ("", "", Some e))
  ∧ outcome (run MemServer.server
               (serveCreateUser secured http.NewResponseWriter malformed_body_request) rooted)
    = (Some 400%Z, []).
Proof.
  split; [reflexivity |]. split; [eexists; by vm_compute |].
  destruct (C10_create_user_decodes_first MemServer.server rooted secured
              http.NewResponseWriter malformed_body_request
              (json.UnmarshalTypeError (json.JArray []) "influxdb.userJSON"))
    as (_ & Hrun & Hstatus); [by vm_compute |].
  unfold outcome. change (http.status <$> returned ?o) with (status_of o).
  rewrite Hstatus by reflexivity. by rewrite Hrun.
Defined.

(** ** Creating resources *)

(** C5 (amended): a create request (database, user, retention policy,
    data node) whose body does not decode into the wire form of the
    resource, a create-database request without a name, and a
    create-data-node request whose URL [url.Parse] refuses, are answered
    with 400 and the server is not called. *)
Theorem C5_rejected_create {St : Type} (srv : Server.impl St) (s : St)
    (url_Parse : string -> option url.URL) (h : Handler) (kind : resource)
    (w : http.ResponseWriter) (r : http.Request) (u : option User) :
  rejected url_Parse kind (http.Body r) = true ->
  http.written w = None ->
  status_of (run srv (serveCreate url_Parse h kind w r u) s) = Some 400%Z
  ∧ calls (run srv (serveCreate url_Parse h kind w r u) s) = []
  ∧ (run srv (serveCreate url_Parse h kind w r u) s).1.2 = s.
Proof.
  intros Hrej Hw.
  destruct kind; unfold rejected in Hrej;
    unfold serveCreate, serveCreateDatabase, serveCreateUser, serveCreateRetentionPolicy,
      serveCreateDataNode.
  - destruct (json.Decode _ createDatabaseRequest_field _ _) as [e|name].
    + unfold status_of. cbn. by rewrite status_Handler_error.
    + rewrite Hrej. unfold status_of. cbn. by rewrite status_Handler_error.
  - destruct (json.Decode _ userJSON_field _ _) as [e|newUser]; [| discriminate].
    unfold status_of. cbn. by rewrite status_Handler_error.
  - destruct (json.Decode _ RetentionPolicy_field _ _) as [e|policy]; [| discriminate].
    unfold status_of. cbn. by rewrite status_Handler_error.
  - destruct (json.Decode _ dataNodeJSON_field _ _) as [e|n].
    + unfold status_of. cbn. by rewrite status_Handler_error.
    + destruct (url_Parse (URL n)); [discriminate |].
      unfold status_of. cbn. by rewrite status_Handler_error.
Qed.

Lemma C5_witness :
  outcome (run MemServer.server
             (serveCreate parse_example secured database http.NewResponseWriter
                empty_object_request None) MemServer.empty) = (Some 400%Z, [])
  ∧ outcome (run MemServer.server
               (serveCreate parse_example secured data_node http.NewResponseWriter
                  colon_url_request None) MemServer.empty) = (Some 400%Z, []).
Proof.
  split.
  - destruct (C5_rejected_create MemServer.server MemServer.empty parse_example secured
                database http.NewResponseWriter empty_object_request None)
      as (Hstatus & Hcalls & _); [by vm_compute | reflexivity |].
    unfold outcome. change (http.status <$> returned ?o) with (status_of o).
    by rewrite Hstatus, Hcalls.
  - destruct (C5_rejected_create MemServer.server MemServer.empty parse_example secured
                data_node http.NewResponseWriter colon_url_request None)
      as (Hstatus & Hcalls & _); [by vm_compute | reflexivity |].
    unfold outcome. change (http.status <$> returned ?o) with (status_of o).
    by rewrite Hstatus, Hcalls.
Defined.

(** A user without name, password and admin flag is not rejected: the
    empty object decodes, and the server is asked to create the user with
    the zero values of the three fields. *)
Lemma C5_counterexample :
  json.Decode "influxdb.userJSON" userJSON_field (http.Body empty_object_request)
    userJSON_zero = inr userJSON_zero
  ∧ outcome (run MemServer.server
               (serveCreate parse_example open user http.NewResponseWriter
                  empty_object_request None) MemServer.empty)
    = (Some 200%Z, [Server.CreateUser "" "" false])
  ∧ MemServer.users
      (run MemServer.server
         (serveCreate parse_example open user http.NewResponseWriter
            empty_object_request None) MemServer.empty).1.2
    = [("", "", false)].
Proof. by vm_compute. Qed.

(** The create handlers for databases, retention policies and data nodes
    write 201 when the server reports no error. *)
Lemma create_database_created {St : Type} (srv : Server.impl St) (s s1 : St)
    (w : http.ResponseWriter) (r : http.Request) (u : option User) (name : string) :
  json.Decode "struct { Name string }" createDatabaseRequest_field (http.Body r) ""
  = inr name ->
  name ≠ "" ->
  srv (Server.CreateDatabase name) s = (None, s1) ->
  http.written w = None ->
  status_of (run srv (serveCreateDatabase w r u) s) = Some 201%Z.
Proof.
  intros Hdec Hname Hsrv Hw. unfold serveCreateDatabase. rewrite Hdec.
  destruct (String.eqb_spec name "") as [|_]; [done |].
  run_step. rewrite Hsrv. unfold status_of, http.status, http.WriteHeader. cbn.
  by rewrite Hw.
Qed.

Lemma create_retention_policy_created {St : Type} (srv : Server.impl St) (s s1 : St)
    (w : http.ResponseWriter) (r : http.Request) (u : option User)
    (policy : RetentionPolicy) :
  json.Decode "influxdb.RetentionPolicy" RetentionPolicy_field (http.Body r)
    RetentionPolicy_zero = inr policy ->
  srv (Server.CreateRetentionPolicy (url.Get (http.Query r) ":db") policy) s = (None, s1) ->
  http.written w = None ->
  status_of (run srv (serveCreateRetentionPolicy w r u) s) = Some 201%Z.
Proof.
  intros Hdec Hsrv Hw. unfold serveCreateRetentionPolicy. rewrite Hdec.
  run_step. rewrite Hsrv. unfold status_of, http.status, http.WriteHeader. cbn.
  by rewrite Hw.
Qed.

(** [serveCreateUser] writes no status when the server reports no error:
    the response writer comes back as it went in. *)
Lemma create_user_writes_nothing {St : Type} (srv : Server.impl St) (s s1 : St)
    (w : http.ResponseWriter) (r : http.Request) (newUser : userJSON) :
  json.Decode "influxdb.userJSON" userJSON_field (http.Body r) userJSON_zero = inr newUser ->
  srv (Server.CreateUser (Name newUser) (Password newUser) (Admin newUser)) s = (None, s1) ->
  run srv (serveCreateUser open w r) s
  = (Some w, s1, [Server.CreateUser (Name newUser) (Password newUser) (Admin newUser)]).
Proof.
  intros Hdec Hsrv. unfold serveCreateUser. rewrite Hdec. cbv zeta.
  cbn [AuthenticationEnabled open]. run_all. by simplify_eq.
Qed.

(** C6, at [POST /users]: the server creates the user and reports no
    error, and the response carries status 200 with an empty body, not
    201 as for the other create handlers. *)
Theorem C6_create_user_status :
  outcome (run MemServer.server
             (serveCreateUser open http.NewResponseWriter
                (anonymous_request "POST" (user_body "root" "toor" true))) MemServer.empty)
  = (Some 200%Z, [Server.CreateUser "root" "toor" true])
  ∧ (run MemServer.server
       (serveCreateUser open http.NewResponseWriter
          (anonymous_request "POST" (user_body "root" "toor" true))) MemServer.empty).1
    = (Some http.NewResponseWriter, rooted)
  ∧ outcome (run MemServer.server
               (serveCreateDatabase http.NewResponseWriter
                  (anonymous_request "POST"
                     (inr (json.JObject [("name", json.JString "metrics")]))) None)
               MemServer.empty)
    = (Some 201%Z, [Server.CreateDatabase "metrics"]).
Proof. by vm_compute. Qed.

(** ** Updating a user *)

(** [serveUpdateUser] passes the password of its local [user], which no
    decoding ever fills: whatever the body holds, the server is asked to
    set the empty password. *)
Lemma update_user_password_empty {St : Type} (srv : Server.impl St) (s : St)
    (w : http.ResponseWriter) (r : http.Request) (u u' : option User) :
  Decode_User_pointer (http.Body r) u = inr u' ->
  calls (run srv (serveUpdateUser w r u) s)
  = [Server.UpdateUser (url.Get (http.Query r) ":user") ""].
Proof.
  intros Hdec. unfold serveUpdateUser. rewrite Hdec. cbv zeta.
  run_cases; reflexivity.
Qed.

(** C4, at [PUT /users/bob] with the body [{"password":"secret"}]: the
    body is well formed and decodes, and the server is asked to update
    [bob] with the empty password, not with the decoded one. *)
Theorem C4_update_user_drops_password {St : Type} (srv : Server.impl St) (s : St) :
  Decode_User_pointer (http.Body update_password_request) None
  = inr (Some {| User_Name := ""; User_Admin := false |})
  ∧ json.Decode "influxdb.userJSON" userJSON_field (http.Body update_password_request)
      userJSON_zero
    = inr {| Name := ""; Password := "secret"; Admin := false |}
  ∧ calls (run srv (serveUpdateUser http.NewResponseWriter update_password_request None) s)
    = [Server.UpdateUser "bob" ""].
Proof.
  split; [by vm_compute |]. split; [by vm_compute |].
  by rewrite (update_user_password_empty srv s _ _ None
                (Some {| User_Name := ""; User_Admin := false |})).
Qed.

(** ** Deleting resources *)

(** Comparing a known error with a sentinel. *)
Ltac err_eval :=
  repeat match goal with
         | |- context [err_is (Some ?a) ?b] =>
             let v := eval vm_compute in (err_is (Some a) b) in
             change (err_is (Some a) b) with v
         end.

(** The delete handlers for databases, users, retention policies and data
    nodes answer 404 when the server reports that the resource is not
    found. *)
Lemma delete_database_not_found {St : Type} (srv : Server.impl St) (s s1 : St)
    (w : http.ResponseWriter) (r : http.Request) (u : option User) :
  srv (Server.DeleteDatabase (url.Get (http.Query r) ":name")) s
  = (Some ErrDatabaseNotFound, s1) ->
  http.written w = None ->
  status_of (run srv (serveDeleteDatabase w r u) s) = Some 404%Z.
Proof.
  intros Hsrv Hw. unfold serveDeleteDatabase. cbv zeta. run_step. rewrite Hsrv. cbn [fst snd].
  err_eval. unfold status_of. cbn. by rewrite status_Handler_error.
Qed.

Lemma delete_user_not_found {St : Type} (srv : Server.impl St) (s s1 : St)
    (w : http.ResponseWriter) (r : http.Request) (u : option User) :
  srv (Server.DeleteUser (url.Get (http.Query r) ":user")) s = (Some ErrUserNotFound, s1) ->
  http.written w = None ->
  status_of (run srv (serveDeleteUser w r u) s) = Some 404%Z.
Proof.
  intros Hsrv Hw. unfold serveDeleteUser. run_step. rewrite Hsrv. cbn [fst snd].
  err_eval. unfold status_of. cbn. by rewrite status_Handler_error.
Qed.

Lemma delete_retention_policy_not_found {St : Type} (srv : Server.impl St) (s s1 : St)
    (w : http.ResponseWriter) (r : http.Request) (u : option User) (e : error) :
  e = ErrDatabaseNotFound ∨ e = ErrRetentionPolicyNotFound ->
  srv (Server.DeleteRetentionPolicy (url.Get (http.Query r) ":db")
         (url.Get (http.Query r) ":name")) s = (Some e, s1) ->
  http.written w = None ->
  status_of (run srv (serveDeleteRetentionPolicy w r u) s) = Some 404%Z.
Proof.
  intros He Hsrv Hw. unfold serveDeleteRetentionPolicy. cbv zeta. run_step. rewrite Hsrv. cbn [fst snd].
  unfold status_of. destruct He as [-> | ->]; err_eval; cbn; by rewrite status_Handler_error.
Qed.

Lemma delete_data_node_not_found {St : Type} (srv : Server.impl St) (s s1 : St)
    (w : http.ResponseWriter) (r : http.Request) (u : option User) (id : N) :
  strconv.ParseUint (url.Get (http.Query r) ":id") = Some id ->
  srv (Server.DeleteDataNode id) s = (Some ErrDataNodeNotFound, s1) ->
  http.written w = None ->
  status_of (run srv (serveDeleteDataNode w r u) s) = Some 404%Z.
Proof.
  intros Hid Hsrv Hw. unfold serveDeleteDataNode. rewrite Hid. run_step. rewrite Hsrv. cbn [fst snd].
  err_eval. unfold status_of. cbn. by rewrite status_Handler_error.
Qed.

(** C3, at [DELETE /db/metrics/shards/7] on a server that has neither the
    database nor the shard: [serveDeleteShard] does nothing, so the
    server is not asked and the response carries status 200 with an empty
    body, where the delete handlers of the other resources answer 404. *)
Theorem C3_delete_shard_does_nothing {St : Type} (srv : Server.impl St) (s : St) :
  run srv (makeAuthenticationHandler open serveDeleteShard http.NewResponseWriter
             delete_shard_request) s
  = (Some http.NewResponseWriter, s, [])
  ∧ outcome (run MemServer.server
               (makeAuthenticationHandler open serveDeleteShard http.NewResponseWriter
                  delete_shard_request) MemServer.empty)
    = (Some 200%Z, [])
  ∧ outcome (run MemServer.server
               (makeAuthenticationHandler open serveDeleteDatabase http.NewResponseWriter
                  (request "DELETE" [(":name", "metrics")] [] (inl (Errorf "EOF"))))
               MemServer.empty)
    = (Some 404%Z, [Server.DeleteDatabase "metrics"]).
Proof. by vm_compute. Qed.

(** * Further properties of the handler *)

(** ** More on splitting *)

Lemma Split_not_nil (s : string) (c : ascii) : strings.Split s c ≠ [].
Proof.
  destruct s as [|x s]; cbn [strings.Split]; [done |].
  destruct (Ascii.eqb x c); [done |]. by destruct (strings.Split s c).
Qed.

Lemma Split_cons_inv (s : string) (c : ascii) (a : string) (rest : list string) :
  strings.Split s c = a :: rest ->
  strings.free_of c a = true
  ∧ ((rest = [] ∧ s = a) ∨ (∃ s', s = a +:+ String c s' ∧ strings.Split s' c = rest)).
Proof.
  revert a rest. induction s as [|x s IH]; intros a rest; cbn [strings.Split].
  - intros [= <- <-]. split; [reflexivity | by left].
  - destruct (Ascii.eqb_spec x c) as [-> | Hne].
    + intros [= <- <-]. split; [reflexivity |]. right. by exists s.
    + destruct (strings.Split s c) as [|f fs] eqn:Hs; [by apply Split_not_nil in Hs |].
      intros [= <- <-]. destruct (IH f fs eq_refl) as [Hf Hcases].
      split.
      * cbn [strings.free_of]. rewrite Hf. by destruct (Ascii.eqb_spec x c).
      * destruct Hcases as [[-> ->] | (s' & -> & Hs')]; [by left |].
        right. by exists s'.
Qed.

(** Two fields are the two sides of the only separator. *)
Lemma Split_two (s : string) (c : ascii) (a b : string) :
  strings.Split s c = [a; b] ->
  s = a +:+ String c b ∧ strings.free_of c a = true ∧ strings.free_of c b = true.
Proof.
  intros Hs. destruct (Split_cons_inv s c a [b] Hs) as [Ha [[? _] | (s' & -> & Hs')]];
    [done |].
  destruct (Split_cons_inv s' c b [] Hs') as [Hb [[_ ->] | (s'' & _ & Hnil)]];
    [done | by apply Split_not_nil in Hnil].
Qed.

(** ** More on the credential extractor *)

(** X1: the extractor does not look at the scheme of the Authorization
    header.  Whatever the first token is, as long as it holds no space, a
    second token that encodes a username and a password without colons
    yields that pair, on a request that does not carry both query
    parameters. *)
Theorem extractor_ignores_scheme (r : http.Request) (scheme username password : string) :
  query_credentials r = false ->
  http.Header_Get (http.Header r) "Authorization" = Authorization scheme username password ->
  strings.free_of " " scheme = true ->
  strings.free_of ":" username = true ->
  strings.free_of ":" password = true ->
  getUsernameAndPassword r = (username, password, None).
Proof.
  intros Hq Hauth Hs Hu Hp.
  rewrite getUsernameAndPassword_header by exact Hq. cbv zeta. rewrite Hauth.
  unfold Authorization.
  change (" " +:+ ?e) with (String " " e).
  rewrite Split_app by exact Hs.
  rewrite Split_free by apply EncodeToString_free.
  destruct (String.eqb_spec (scheme +:+ String " " (base64.EncodeToString
              (username +:+ ":" +:+ password))) "") as [Hempty | _].
  { by destruct scheme. }
  cbn [length Nat.eqb negb nth].
  rewrite DecodeString_EncodeToString, Split_pair by assumption.
  reflexivity.
Qed.

Lemma extractor_ignores_scheme_witness :
  getUsernameAndPassword bearer_request = ("alice", "s3cret", None).
Proof.
  apply (extractor_ignores_scheme bearer_request "Bearer" "alice" "s3cret"); by vm_compute.
Defined.

(** X2: a pair that the extractor takes from the Authorization header is
    the pair that the header encodes.  When the request does not carry
    both query parameters, the header is not empty and the extractor
    returns a username and a password without error, the header is a
    first token without space, a space and a second token; the second
    token decodes to the username, a colon and the password; and neither
    the username nor the password holds a colon. *)
Theorem extractor_sound (r : http.Request) (username password : string) :
  query_credentials r = false ->
  http.Header_Get (http.Header r) "Authorization" ≠ "" ->
  getUsernameAndPassword r = (username, password, None) ->
  ∃ scheme token,
    http.Header_Get (http.Header r) "Authorization" = scheme +:+ " " +:+ token
    ∧ strings.free_of " " scheme = true
    ∧ strings.free_of " " token = true
    ∧ base64.DecodeString token = Some (username +:+ ":" +:+ password)
    ∧ strings.free_of ":" username = true
    ∧ strings.free_of ":" password = true.
Proof.
  intros Hq Hne. rewrite getUsernameAndPassword_header by exact Hq. cbv zeta.
  destruct (String.eqb_spec (http.Header_Get (http.Header r) "Authorization") "") as [|_];
    [done |].
  destruct (strings.Split (http.Header_Get (http.Header r) "Authorization") " ")
    as [|scheme [|token [|? ?]]] eqn:Hfields; cbn [length Nat.eqb negb nth]; try done.
  destruct (base64.DecodeString token) as [bs|] eqn:Hbs; [| done].
  destruct (strings.Split bs ":") as [|u [|p [|? ?]]] eqn:Hpair;
    cbn [length Nat.eqb negb nth]; try done.
  intros [= <- <-].
  apply Split_two in Hfields as (-> & Hscheme & Htoken).
  apply Split_two in Hpair as (-> & Hu & Hp).
  by exists scheme, token.
Qed.

Lemma extractor_sound_witness :
  ∃ scheme token,
    http.Header_Get (http.Header alice_request) "Authorization" = scheme +:+ " " +:+ token
    ∧ strings.free_of " " scheme = true
    ∧ strings.free_of " " token = true
    ∧ base64.DecodeString token = Some ("alice" +:+ ":" +:+ "s3cret/+ ")
    ∧ strings.free_of ":" "alice" = true
    ∧ strings.free_of ":" "s3cret/+ " = true.
Proof.
  apply (extractor_sound alice_request "alice" "s3cret/+ "); by vm_compute.
Defined.

(** X3: the extractor fails only on the Authorization header and never
    returns credentials together with an error.  When it returns an
    error, the username and the password are empty, the request does not
    carry both query parameters, the header is not empty, and the error is
    one of three: the header is not two tokens, the second token is not
    Base64, or the decoded value is not two fields. *)
Theorem extractor_failure (r : http.Request) (username password : string) (e : error) :
  getUsernameAndPassword r = (username, password, Some e) ->
  username = "" ∧ password = ""
  ∧ query_credentials r = false
  ∧ http.Header_Get (http.Header r) "Authorization" ≠ ""
  ∧ (e = Errorf "invalid Basic Authentication header"
     ∨ e = Errorf "invalid Base64 encoding"
     ∨ e = Errorf "invalid Basic Authentication value").
Proof.
  destruct (query_credentials r) eqn:Hq.
  { unfold getUsernameAndPassword. unfold query_credentials in Hq. cbv zeta.
    by rewrite Hq. }
  rewrite getUsernameAndPassword_header by exact Hq. cbv zeta.
  destruct (String.eqb_spec (http.Header_Get (http.Header r) "Authorization") "") as [|Hne];
    [done |].
  destruct (negb _); [intros [= <- <- <-]; by auto 10 |].
  destruct (base64.DecodeString _); [| intros [= <- <- <-]; by auto 10].
  destruct (negb _); [intros [= <- <- <-]; by auto 10 | done].
Qed.

Lemma extractor_failure_witness :
  "" = "" ∧ "" = ""
  ∧ query_credentials one_token_request = false
  ∧ http.Header_Get (http.Header one_token_request) "Authorization" ≠ ""
  ∧ (Errorf "invalid Basic Authentication header" = Errorf "invalid Basic Authentication header"
     ∨ Errorf "invalid Basic Authentication header" = Errorf "invalid Base64 encoding"
     ∨ Errorf "invalid Basic Authentication header"
       = Errorf "invalid Basic Authentication value").
Proof.
  apply (extractor_failure one_token_request "" ""
           (Errorf "invalid Basic Authentication header")).
  by vm_compute.
Defined.

(** ** Every way a handler can go *)

Lemma traced_run {St A : Type} (P : list Server.call -> A -> Prop)
    (Q : list Server.call -> Prop) (srv : Server.impl St) (p : Prog A) :
  ∀ (made : list Server.call) (s : St),
    traced P Q made p ->
    match returned (run srv p s) with
    | Some a => P (made ++ calls (run srv p s)) a
    | None => Q (made ++ calls (run srv p s))
    end.
Proof.
  induction p as [a|c k IH|]; intros made s Hp.
  - cbn. by rewrite app_nil_r.
  - rewrite run_Do. unfold returned, calls, after in *. cbn [fst snd] in *.
    specialize (IH (srv c s).1 (made ++ [c]) (srv c s).2 (Hp _)).
    by rewrite <- app_assoc in IH.
  - cbn. by rewrite app_nil_r.
Qed.

Lemma traced_returned {St A : Type} (P : list Server.call -> A -> Prop)
    (Q : list Server.call -> Prop) (srv : Server.impl St) (p : Prog A) (s : St) (a : A) :
  traced P Q [] p ->
  returned (run srv p s) = Some a ->
  P (calls (run srv p s)) a.
Proof.
  intros Hp Hret. pose proof (traced_run P Q srv p [] s Hp) as H.
  by rewrite Hret in H.
Qed.

(** The routes one by one. *)
Ltac each_route H :=
  unfold routes, protected in H; cbn [map app fst snd] in H;
  repeat (apply elem_of_cons in H as [-> | H]);
  [.. | by apply elem_of_nil in H]; cbn [fst snd].

Ltac unfold_handlers :=
  unfold makeAuthenticationHandler, serveAuthenticate, serveCreateUser, serveUsers,
    serveUpdateUser, serveDeleteUser, serveDatabases, serveCreateDatabase,
    serveDeleteDatabase, serveQuery, serveWriteSeries, serveShards, serveDeleteShard,
    serveRetentionPolicies, serveCreateRetentionPolicy, serveUpdateRetentionPolicy,
    serveDeleteRetentionPolicy, serveDataNodes, serveCreateDataNode, serveDeleteDataNode,
    servePing, call, mbind, Prog_bind; cbv zeta.

(** Every branch of a program, down to its leaves. *)
Ltac branches :=
  repeat (cbn [traced bind app];
          match goal with
          | |- ∀ _, _ => intro
          | |- traced _ _ _ (match ?x with _ => _ end) => destruct x eqn:?
          | |- traced _ _ _ (if ?x then _ else _) => destruct x eqn:?
          | |- traced _ _ _ (bind (if ?x then _ else _) _) => destruct x eqn:?
          | |- traced _ _ _ (bind (match ?x with _ => _ end) _) => destruct x eqn:?
          end);
  cbn [traced bind app].

(** The status of each kind of response on a writer that nothing was
    written to. *)
Lemma status_unwritten (w : http.ResponseWriter) :
  http.written w = None -> http.status w = 200%Z.
Proof. intros Hw. unfold http.status. by rewrite Hw. Qed.

Lemma status_WriteHeader (w : http.ResponseWriter) (code : Z) :
  http.written w = None -> http.status (http.WriteHeader w code) = code.
Proof. intros Hw. unfold http.status, http.WriteHeader. rewrite Hw. reflexivity. Qed.

Lemma status_Write (w : http.ResponseWriter) (c : http.Chunk) :
  http.status (http.Write w c)
  = match http.written w with Some _ => http.status w | None => 200%Z end.
Proof.
  unfold http.Write, http.WriteHeader, http.status.
  destruct (http.written w) as [[code hd]|] eqn:Hw; cbn [http.written].
  - rewrite Hw. destruct (http.bodyAllowedForStatus code); cbn [http.written]; by rewrite ?Hw.
  - destruct (http.bodyAllowedForStatus http.StatusOK); reflexivity.
Qed.

Lemma status_Encode (w : http.ResponseWriter) (key value : string) (v : json.Value) :
  http.written w = None -> http.status (Encode (http.AddHeader w key value) v) = 200%Z.
Proof. intros Hw. unfold Encode. rewrite status_Write. cbn. by rewrite Hw. Qed.

Lemma status_Encode_written (w : http.ResponseWriter) (code : Z) (key value : string)
    (v : json.Value) :
  http.written w = None ->
  http.status (Encode (http.AddHeader (http.WriteHeader w code) key value) v) = code.
Proof.
  intros Hw. unfold Encode. rewrite status_Write.
  unfold http.AddHeader, http.WriteHeader, http.status. rewrite Hw. reflexivity.
Qed.

Lemma status_of_answer (allowed : Z -> bool) (w w' : http.ResponseWriter) :
  http.written w = None ->
  answer allowed w w' ->
  http.status w' = 200%Z ∨ http.status w' = 201%Z ∨ http.status w' = 204%Z
  ∨ allowed (http.status w') = true.
Proof.
  intros Hw [| msg code Hcode | code [-> | ->] | v | v].
  - left. by apply status_unwritten.
  - rewrite status_Handler_error by exact Hw. by auto.
  - rewrite status_WriteHeader by exact Hw. by auto.
  - rewrite status_WriteHeader by exact Hw. by auto.
  - left. by apply status_Encode.
  - rewrite status_Encode_written by exact Hw. by auto.
Qed.

Ltac answer_leaf :=
  first [ apply answer_nothing
        | apply answer_error; reflexivity
        | apply answer_status; first [left; reflexivity | right; reflexivity]
        | apply answer_json
        | apply answer_created ].

(** Every route answers in one of five ways. *)
Lemma routes_answer (url_Parse : string -> option url.URL)
    (ParseQuery : string -> option error) (h : Handler)
    (rt : string * string * HandlerFunc) (w : http.ResponseWriter) (r : http.Request) :
  rt ∈ routes url_Parse ParseQuery h ->
  traced (fun _ w' => answer (error_code (AuthenticationEnabled h)) w w') (fun _ => True) []
    (rt.2 w r).
Proof.
  intros Hrt. destruct (AuthenticationEnabled h) eqn:Hauth;
    each_route Hrt; unfold_handlers; rewrite ?Hauth; branches;
    first [exact I | answer_leaf].
Qed.

(** Membership in a list that is written out. *)
Ltac in_list := repeat first [apply list_elem_of_here | apply list_elem_of_further].

(** X4: whatever the route, the request and the answers of the server,
    the status of a response is one of 200, 201, 204, 400, 401, 404, 409
    and 500; and it is not 401 when authentication is disabled. *)
Theorem routes_status_vocabulary {St : Type} (srv : Server.impl St) (s : St)
    (url_Parse : string -> option url.URL) (ParseQuery : string -> option error)
    (h : Handler) (rt : string * string * HandlerFunc)
    (w w' : http.ResponseWriter) (r : http.Request) :
  rt ∈ routes url_Parse ParseQuery h ->
  http.written w = None ->
  returned (run srv (rt.2 w r) s) = Some w' ->
  http.status w' ∈ vocabulary
  ∧ (AuthenticationEnabled h = false -> http.status w' ≠ 401%Z).
Proof.
  intros Hrt Hw Hret.
  pose proof (traced_returned _ _ srv (rt.2 w r) s w'
                (routes_answer url_Parse ParseQuery h rt w r Hrt) Hret) as Hans.
  cbv beta in Hans. apply (status_of_answer _ w w' Hw) in Hans.
  unfold vocabulary. destruct Hans as [-> | [-> | [-> | Hcode]]]; try (split; [in_list | done]).
  unfold error_code in Hcode.
  repeat (apply orb_prop in Hcode as [Hcode | Hcode]);
    try apply andb_prop in Hcode as [Hon Hcode];
    apply Z.eqb_eq in Hcode; rewrite Hcode; (split; [in_list | congruence]).
Qed.

Lemma routes_status_vocabulary_witness :
  http.status <$> returned (run MemServer.server
                              (makeAuthenticationHandler secured serveCreateDatabase
                                 http.NewResponseWriter create_metrics_request) rooted)
  = Some 201%Z
  ∧ 201%Z ∈ vocabulary.
Proof.
  split; [by vm_compute |].
  apply (routes_status_vocabulary MemServer.server rooted parse_example no_query secured
           ("POST", "/db", makeAuthenticationHandler secured serveCreateDatabase)
           http.NewResponseWriter
           (http.WriteHeader http.NewResponseWriter 201%Z) create_metrics_request).
  - unfold routes, protected. cbn [map app fst snd]. in_list.
  - reflexivity.
  - by vm_compute.
Defined.

(** ** What the routes ask of the server *)

Ltac status_contradiction Hw H :=
  exfalso;
  rewrite ?status_Handler_error, ?status_WriteHeader, ?status_Encode,
    ?status_Encode_written, ?status_unwritten in H by exact Hw;
  compute in H; by destruct H.

(** X5: the calls of a request that is answered with 400 or 401: whatever
    the route, when the status of the response is 400 or 401, the only
    calls made to the server are [AuthenticatedUser] and
    [AdminUserExists]; no create, update, delete or listing was called.
    This is about calls: what [serveUpdateUser] writes, by decoding the
    body, into the user that the gate resolved is no call and is not
    covered. *)
Theorem rejected_request_asks_nothing {St : Type} (srv : Server.impl St) (s : St)
    (url_Parse : string -> option url.URL) (ParseQuery : string -> option error)
    (h : Handler) (rt : string * string * HandlerFunc)
    (w w' : http.ResponseWriter) (r : http.Request) :
  rt ∈ routes url_Parse ParseQuery h ->
  http.written w = None ->
  returned (run srv (rt.2 w r) s) = Some w' ->
  http.status w' = 400%Z ∨ http.status w' = 401%Z ->
  forallb authenticating (calls (run srv (rt.2 w r) s)) = true.
Proof.
  intros Hrt Hw Hret.
  apply (traced_returned
           (fun cs w' => http.status w' = 400%Z ∨ http.status w' = 401%Z ->
                         forallb authenticating cs = true)
           (fun _ => True) srv (rt.2 w r) s w'); [| exact Hret].
  clear Hret. each_route Hrt; unfold_handlers; branches;
    first [ exact I | reflexivity
          | match goal with H : _ ∨ _ |- _ => status_contradiction Hw H end ].
Qed.

Lemma rejected_request_asks_nothing_witness :
  forallb authenticating
    (calls (run MemServer.server
              (makeAuthenticationHandler secured serveCreateDatabase http.NewResponseWriter
                 (root_request "POST" (inr (json.JObject [])))) rooted)) = true.
Proof.
  apply (rejected_request_asks_nothing MemServer.server rooted parse_example no_query secured
           ("POST", "/db", makeAuthenticationHandler secured serveCreateDatabase)
           http.NewResponseWriter
           (Handler_error http.NewResponseWriter (Error ErrDatabaseNameRequired) 400%Z)
           (root_request "POST" (inr (json.JObject [])))).
  - unfold routes, protected. cbn [map app fst snd]. in_list.
  - reflexivity.
  - by vm_compute.
  - left. by vm_compute.
Defined.

(** X6: with authentication disabled no route asks the server to
    authenticate: neither [AuthenticatedUser] nor [AdminUserExists] is
    ever called, whether the handler returns or panics. *)
Theorem disabled_never_authenticates {St : Type} (srv : Server.impl St) (s : St)
    (url_Parse : string -> option url.URL) (ParseQuery : string -> option error)
    (h : Handler) (rt : string * string * HandlerFunc)
    (w : http.ResponseWriter) (r : http.Request) :
  rt ∈ routes url_Parse ParseQuery h ->
  AuthenticationEnabled h = false ->
  forallb (fun c => negb (authenticating c)) (calls (run srv (rt.2 w r) s)) = true.
Proof.
  intros Hrt Hauth.
  pose proof (traced_run
                (fun cs _ => forallb (fun c => negb (authenticating c)) cs = true)
                (fun cs => forallb (fun c => negb (authenticating c)) cs = true)
                srv (rt.2 w r) [] s) as Hrun.
  cbn [app] in Hrun.
  assert (∀ o : option http.ResponseWriter,
            match o with
            | Some _ | None =>
                forallb (fun c => negb (authenticating c)) (calls (run srv (rt.2 w r) s)) = true
            end -> forallb (fun c => negb (authenticating c))
                     (calls (run srv (rt.2 w r) s)) = true) as Hboth by (by intros []).
  apply (Hboth (returned (run srv (rt.2 w r) s))).
  destruct (returned (run srv (rt.2 w r) s)); apply Hrun; clear Hrun Hboth;
    each_route Hrt; unfold_handlers; rewrite ?Hauth; branches; reflexivity.
Qed.

Lemma disabled_never_authenticates_witness :
  forallb (fun c => negb (authenticating c))
    (calls (run MemServer.server
              (serveCreateUser open http.NewResponseWriter
                 (anonymous_request "POST" (user_body "bob" "pw" false))) rooted)) = true.
Proof.
  apply (disabled_never_authenticates MemServer.server rooted parse_example no_query open
           ("POST", "/users", serveCreateUser open) http.NewResponseWriter
           (anonymous_request "POST" (user_body "bob" "pw" false))).
  - unfold routes, protected. cbn [map app fst snd]. in_list.
  - reflexivity.
Defined.

(** X7: a request changes the server at most once, and a [GET] request
    never does: whatever the route and the answers of the server, at most
    one of the calls made is a create, an update or a delete, and none is
    on a route registered for [GET]; this holds when the handler panics as
    well. *)
Theorem at_most_one_mutation {St : Type} (srv : Server.impl St) (s : St)
    (url_Parse : string -> option url.URL) (ParseQuery : string -> option error)
    (h : Handler) (rt : string * string * HandlerFunc)
    (w : http.ResponseWriter) (r : http.Request) :
  rt ∈ routes url_Parse ParseQuery h ->
  (mutations (calls (run srv (rt.2 w r) s)) ≤ 1)%nat
  ∧ (rt.1.1 = "GET" -> mutations (calls (run srv (rt.2 w r) s)) = 0).
Proof.
  intros Hrt.
  pose (P := fun cs : list Server.call =>
               (mutations cs ≤ 1)%nat ∧ (rt.1.1 = "GET" -> mutations cs = 0)).
  pose proof (traced_run (fun cs _ => P cs) P srv (rt.2 w r) [] s) as Hrun.
  cbn [app] in Hrun.
  enough (traced (fun cs _ => P cs) P [] (rt.2 w r)) as Htr.
  { specialize (Hrun Htr). by destruct (returned (run srv (rt.2 w r) s)). }
  clear Hrun. subst P.
  each_route Hrt; unfold_handlers; branches;
    (split; [vm_compute; lia | first [reflexivity | discriminate]]).
Qed.

Lemma at_most_one_mutation_witness :
  (mutations (calls (run MemServer.server
                       (makeAuthenticationHandler secured serveUsers http.NewResponseWriter
                          (root_request "GET" (inl (Errorf "EOF")))) rooted)) ≤ 1)%nat
  ∧ ("GET" = "GET" ->
     mutations (calls (run MemServer.server
                         (makeAuthenticationHandler secured serveUsers http.NewResponseWriter
                            (root_request "GET" (inl (Errorf "EOF")))) rooted)) = 0).
Proof.
  apply (at_most_one_mutation MemServer.server rooted parse_example no_query secured
           ("GET", "/users", makeAuthenticationHandler secured serveUsers)
           http.NewResponseWriter (root_request "GET" (inl (Errorf "EOF")))).
  unfold routes, protected. cbn [map app fst snd]. in_list.
Defined.

(** ** Headers *)

(** A handler touches two headers at most: the content type and the
    content type options. *)
Lemma sent_of_answer (allowed : Z -> bool) (w w' : http.ResponseWriter) (key : string) :
  http.written w = None ->
  answer allowed w w' ->
  key ≠ "Content-Type" -> key ≠ "X-Content-Type-Options" ->
  http.sent w' !! key = http.handlerHeader w !! key.
Proof.
  intros Hw Hans Hct Hcto.
  destruct Hans as [| msg code Hcode | code Hcode | v | v];
    unfold http.sent, Handler_error, http.Error, Encode, http.Write, http.WriteHeader,
      http.AddHeader, http.SetHeader, http.Header_Set, http.Header_Add;
    cbn [http.written http.handlerHeader]; rewrite ?Hw; cbn [http.written http.handlerHeader].
  - reflexivity.
  - destruct (http.bodyAllowedForStatus code); cbn [http.written];
      by rewrite !lookup_insert_ne.
  - reflexivity.
  - destruct (http.bodyAllowedForStatus http.StatusOK); cbn [http.written];
      by rewrite lookup_insert_ne.
  - by destruct (http.bodyAllowedForStatus 201).
Qed.

Lemma ServeHTTP_eq (h : Handler) (mux : HandlerFunc) (w : http.ResponseWriter)
    (r : http.Request) :
  ServeHTTP h mux w r
  = if String.eqb (http.Method r) "OPTIONS"
    then Ret (http.WriteHeader (with_standard_headers h w) http.StatusOK)
    else mux (with_standard_headers h w) r.
Proof. reflexivity. Qed.

Lemma standard_headers_added (h : Handler) (key value : string) :
  (key, value) ∈ standard_headers h ->
  http.handlerHeader (with_standard_headers h http.NewResponseWriter) !! key = Some [value]
  ∧ key ≠ "Content-Type" ∧ key ≠ "X-Content-Type-Options".
Proof.
  unfold standard_headers. intros Hin.
  repeat (apply elem_of_cons in Hin as [[= -> ->] | Hin]);
    [.. | by apply elem_of_nil in Hin]; by vm_compute.
Qed.

(** X8: every response that goes through [ServeHTTP] carries the five
    headers that [ServeHTTP] adds (the four cross-origin headers and the
    version), each with its one value: whatever the route behind it, the
    request and the answers of the server, no handler removes or replaces
    one of them. *)
Theorem ServeHTTP_standard_headers {St : Type} (srv : Server.impl St) (s : St)
    (url_Parse : string -> option url.URL) (ParseQuery : string -> option error)
    (h : Handler) (rt : string * string * HandlerFunc)
    (w' : http.ResponseWriter) (r : http.Request) (key value : string) :
  rt ∈ routes url_Parse ParseQuery h ->
  returned (run srv (ServeHTTP h rt.2 http.NewResponseWriter r) s) = Some w' ->
  (key, value) ∈ standard_headers h ->
  http.sent w' !! key = Some [value].
Proof.
  intros Hrt Hret Hkv. apply standard_headers_added in Hkv as (Hadded & Hct & Hcto).
  rewrite ServeHTTP_eq in Hret.
  destruct (String.eqb (http.Method r) "OPTIONS").
  - cbn in Hret. injection Hret as <-. exact Hadded.
  - pose proof (traced_returned _ _ srv _ s w'
                  (routes_answer url_Parse ParseQuery h rt
                     (with_standard_headers h http.NewResponseWriter) r Hrt) Hret) as Hans.
    cbv beta in Hans.
    assert (http.written (with_standard_headers h http.NewResponseWriter) = None) as Hw
      by reflexivity.
    by rewrite (sent_of_answer _ _ _ key Hw Hans Hct Hcto).
Qed.

Lemma ServeHTTP_standard_headers_witness :
  http.sent (Handler_error (with_standard_headers secured http.NewResponseWriter)
               "invalid username or password" 401%Z)
    !! "X-Influxdb-Version" = Some ["0.9"].
Proof.
  apply (ServeHTTP_standard_headers MemServer.server rooted parse_example no_query secured
           ("DELETE", "/db/:name", makeAuthenticationHandler secured serveDeleteDatabase)
           _ (anonymous_request "DELETE" (inl (Errorf "EOF")))).
  - unfold routes, protected. cbn [map app fst snd]. in_list.
  - vm_compute. reflexivity.
  - unfold standard_headers. in_list.
Defined.

(** X9: [OPTIONS] is answered by [ServeHTTP] itself, whatever the path:
    the status is 200, the body is empty, the header map that
    [WriteHeader] fixes for the response holds the five standard headers
    and no other, the router is not run and the server is not called.
    (What net/http adds to the handler's headers is not modelled.) *)
Theorem ServeHTTP_OPTIONS {St : Type} (srv : Server.impl St) (s : St)
    (h : Handler) (mux : HandlerFunc) (r : http.Request) :
  http.Method r = "OPTIONS" ->
  ∃ w', run srv (ServeHTTP h mux http.NewResponseWriter r) s = (Some w', s, [])
        ∧ http.status w' = 200%Z
        ∧ http.body w' = []
        ∧ http.written w'
          = Some (200%Z, list_to_map (map (fun kv => (kv.1, [kv.2])) (standard_headers h))).
Proof.
  intros Hm. rewrite ServeHTTP_eq, Hm. cbn [String.eqb].
  eexists. split; [reflexivity |]. split; [reflexivity |]. split; [reflexivity |].
  reflexivity.
Qed.

Lemma ServeHTTP_OPTIONS_witness :
  ∃ w', run MemServer.server
          (ServeHTTP secured (serveCreateUser secured) http.NewResponseWriter options_request)
          rooted = (Some w', rooted, [])
        ∧ http.status w' = 200%Z
        ∧ http.body w' = []
        ∧ http.written w'
          = Some (200%Z,
                  list_to_map (map (fun kv => (kv.1, [kv.2])) (standard_headers secured))).
Proof.
  apply (ServeHTTP_OPTIONS MemServer.server rooted secured (serveCreateUser secured)
           options_request).
  reflexivity.
Defined.

Lemma content_type_of_answer (authentication : bool) (w w' : http.ResponseWriter) :
  http.written w = None ->
  http.handlerHeader w !! "Content-Type" = None ->
  http.body w = [] ->
  answer (error_code authentication) w w' ->
  match http.body w' with
  | [] => http.status w' = 200%Z ∨ http.status w' = 201%Z ∨ http.status w' = 204%Z
  | _ :: _ =>
      (http.sent w' !! "Content-Type" = Some ["text/plain; charset=utf-8"]
       ∧ error_code authentication (http.status w') = true)
      ∨ (http.sent w' !! "Content-Type" = Some ["application/json"]
         ∧ http.status w' = 200%Z)
      ∨ http.status w' = 201%Z
  end.
Proof.
  intros Hw Hct Hbody Hans.
  destruct Hans as [| msg code Hcode | code Hcode | v | v].
  - rewrite Hbody. left. by apply status_unwritten.
  - assert (http.bodyAllowedForStatus code = true) as Hallowed.
    { unfold error_code in Hcode.
      repeat (apply orb_prop in Hcode as [Hcode | Hcode]);
        try apply andb_prop in Hcode as [_ Hcode];
        apply Z.eqb_eq in Hcode; by rewrite Hcode. }
    rewrite status_Handler_error by exact Hw.
    unfold http.sent, Handler_error, http.Error, http.Write, http.WriteHeader,
      http.SetHeader, http.Header_Set.
    cbn [http.written http.handlerHeader http.body]. rewrite Hw.
    cbn [http.written http.handlerHeader http.body]. rewrite Hallowed, Hbody.
    cbn [http.written http.handlerHeader http.body app].
    left. split; [| exact Hcode].
    rewrite lookup_insert_ne by done. by rewrite lookup_insert_eq.
  - rewrite status_WriteHeader by exact Hw.
    unfold http.WriteHeader. rewrite Hw. cbn [http.body]. rewrite Hbody.
    destruct Hcode as [-> | ->]; by auto.
  - rewrite status_Encode by exact Hw.
    unfold http.sent, Encode, http.Write, http.WriteHeader, http.AddHeader, http.Header_Add.
    cbn [http.written http.handlerHeader http.body]. rewrite Hw.
    cbn [http.written http.handlerHeader http.body]. rewrite Hbody, Hct.
    change (http.bodyAllowedForStatus http.StatusOK) with true.
    cbn [http.written http.handlerHeader http.body app default].
    right. left. split; [| reflexivity]. by rewrite lookup_insert_eq.
  - rewrite status_Encode_written by exact Hw.
    unfold http.sent, Encode, http.Write, http.WriteHeader, http.AddHeader, http.Header_Add.
    cbn [http.written http.handlerHeader http.body]. rewrite Hw.
    cbn [http.written http.handlerHeader http.body]. rewrite Hbody.
    change (http.bodyAllowedForStatus 201) with true.
    cbn [http.written http.handlerHeader http.body app].
    right. right. reflexivity.
Qed.

(** X10: the body and the content type of a response, whatever the
    route.  A response without a body has status 200, 201 or 204.  A
    response with a body is an error with the content type [text/plain],
    or a 200 with the content type [application/json], or a 201.  Of the
    content type of a 201 with a body nothing is said here: its handler
    fixes none, which X17 states. *)
Theorem response_content_type {St : Type} (srv : Server.impl St) (s : St)
    (url_Parse : string -> option url.URL) (ParseQuery : string -> option error)
    (h : Handler) (rt : string * string * HandlerFunc)
    (w w' : http.ResponseWriter) (r : http.Request) :
  rt ∈ routes url_Parse ParseQuery h ->
  http.written w = None ->
  http.handlerHeader w !! "Content-Type" = None ->
  http.body w = [] ->
  returned (run srv (rt.2 w r) s) = Some w' ->
  match http.body w' with
  | [] => http.status w' = 200%Z ∨ http.status w' = 201%Z ∨ http.status w' = 204%Z
  | _ :: _ =>
      (http.sent w' !! "Content-Type" = Some ["text/plain; charset=utf-8"]
       ∧ error_code (AuthenticationEnabled h) (http.status w') = true)
      ∨ (http.sent w' !! "Content-Type" = Some ["application/json"]
         ∧ http.status w' = 200%Z)
      ∨ http.status w' = 201%Z
  end.
Proof.
  intros Hrt Hw Hct Hbody Hret.
  apply (content_type_of_answer (AuthenticationEnabled h) w w' Hw Hct Hbody).
  exact (traced_returned _ _ srv (rt.2 w r) s w'
           (routes_answer url_Parse ParseQuery h rt w r Hrt) Hret).
Qed.

Lemma response_content_type_witness :
  ∃ w',
    returned (run MemServer.server
                (makeAuthenticationHandler secured (serveCreateDataNode parse_example)
                   http.NewResponseWriter node_request) rooted) = Some w'
    ∧ http.body w' ≠ []
    ∧ match http.body w' with
      | [] => http.status w' = 200%Z ∨ http.status w' = 201%Z ∨ http.status w' = 204%Z
      | _ :: _ =>
          (http.sent w' !! "Content-Type" = Some ["text/plain; charset=utf-8"]
           ∧ error_code (AuthenticationEnabled secured) (http.status w') = true)
          ∨ (http.sent w' !! "Content-Type" = Some ["application/json"]
             ∧ http.status w' = 200%Z)
          ∨ http.status w' = 201%Z
      end.
Proof.
  eexists. split; [vm_compute; reflexivity |]. split; [done |].
  apply (response_content_type MemServer.server rooted parse_example no_query secured
           ("POST", "/data_nodes",
            makeAuthenticationHandler secured (serveCreateDataNode parse_example))
           http.NewResponseWriter _ node_request).
  - unfold routes, protected. cbn [map app fst snd]. in_list.
  - reflexivity.
  - reflexivity.
  - reflexivity.
  - vm_compute. reflexivity.
Defined.

(** ** The statuses of the handlers that change the server *)

Ltac mapped Hw :=
  run_step;
  match goal with
  | |- context [?srv ?c ?s] =>
      lazymatch type of srv with
      | Server.impl _ => destruct (srv c s) as [[[]|] ?]
      end
  end;
  cbn [fst snd]; err_eval; unfold status_of, after, returned, calls;
  cbn [run fst snd fmap option_fmap option_map orb];
  rewrite ?status_Handler_error, ?status_WriteHeader, ?status_unwritten by exact Hw;
  (split; reflexivity).

(** X11: the status of a delete and of an update of a retention policy,
    from what the server returns.  Each of these handlers calls the
    server once.  Without error the status is 204; it is 404 for the
    error that says the resource is not found (for a retention policy,
    also the one that says its database is not found) and 500 for any
    other error. *)
Theorem delete_status {St : Type} (srv : Server.impl St) (s : St)
    (w : http.ResponseWriter) (r : http.Request) (u : option User) :
  http.written w = None ->
  (let c := Server.DeleteDatabase (url.Get (http.Query r) ":name") in
   status_of (run srv (serveDeleteDatabase w r u) s)
   = Some (status_for 204 [ErrDatabaseNotFound] [] (srv c s).1)
   ∧ calls (run srv (serveDeleteDatabase w r u) s) = [c])
  ∧ (let c := Server.DeleteUser (url.Get (http.Query r) ":user") in
     status_of (run srv (serveDeleteUser w r u) s)
     = Some (status_for 204 [ErrUserNotFound] [] (srv c s).1)
     ∧ calls (run srv (serveDeleteUser w r u) s) = [c])
  ∧ (let c := Server.DeleteRetentionPolicy (url.Get (http.Query r) ":db")
                (url.Get (http.Query r) ":name") in
     status_of (run srv (serveDeleteRetentionPolicy w r u) s)
     = Some (status_for 204 [ErrDatabaseNotFound; ErrRetentionPolicyNotFound] [] (srv c s).1)
     ∧ calls (run srv (serveDeleteRetentionPolicy w r u) s) = [c])
  ∧ (∀ id, strconv.ParseUint (url.Get (http.Query r) ":id") = Some id ->
     let c := Server.DeleteDataNode id in
     status_of (run srv (serveDeleteDataNode w r u) s)
     = Some (status_for 204 [ErrDataNodeNotFound] [] (srv c s).1)
     ∧ calls (run srv (serveDeleteDataNode w r u) s) = [c])
  ∧ (∀ policy,
       json.Decode "influxdb.RetentionPolicy" RetentionPolicy_field (http.Body r)
         RetentionPolicy_zero = inr policy ->
       let c := Server.UpdateRetentionPolicy (url.Get (http.Query r) ":db")
                  (url.Get (http.Query r) ":name") policy in
       status_of (run srv (serveUpdateRetentionPolicy w r u) s)
       = Some (status_for 204 [ErrDatabaseNotFound; ErrRetentionPolicyNotFound] []
                 (srv c s).1)
       ∧ calls (run srv (serveUpdateRetentionPolicy w r u) s) = [c]).
Proof.
  intros Hw. repeat split_and; cbv zeta.
  - unfold serveDeleteDatabase. cbv zeta. mapped Hw.
  - unfold serveDeleteUser. mapped Hw.
  - unfold serveDeleteRetentionPolicy. cbv zeta. mapped Hw.
  - intros id Hid. unfold serveDeleteDataNode. rewrite Hid. mapped Hw.
  - intros policy Hdec. unfold serveUpdateRetentionPolicy. cbv zeta. rewrite Hdec.
    mapped Hw.
Qed.

Lemma delete_status_witness :
  status_of (run MemServer.server
               (serveDeleteDatabase http.NewResponseWriter delete_database_request None)
               rooted) = Some 404%Z
  ∧ status_of (run MemServer.server
                 (serveDeleteDatabase http.NewResponseWriter delete_database_request None)
                 with_metrics) = Some 204%Z.
Proof.
  split.
  - apply (proj1 (delete_status MemServer.server rooted http.NewResponseWriter
                    delete_database_request None eq_refl)).
  - apply (proj1 (delete_status MemServer.server with_metrics http.NewResponseWriter
                    delete_database_request None eq_refl)).
Defined.

(** X12: the status of a create, from what the server returns.  A
    database with a name, a retention policy, and a user when
    authentication is disabled, are created with one call to the server;
    the status is 201 without error (200 for a user, whose handler writes
    no status), 409 for the error that says the resource exists, 404 when
    the database of a retention policy is not found, and 500 for any other
    error.  When the server refuses a data node, the status is 409 or 500
    in the same way and the node is not looked up. *)
Theorem create_status {St : Type} (srv : Server.impl St) (s : St)
    (url_Parse : string -> option url.URL) (h : Handler)
    (w : http.ResponseWriter) (r : http.Request) (u : option User) :
  http.written w = None ->
  (∀ name,
     json.Decode "struct { Name string }" createDatabaseRequest_field (http.Body r) ""
     = inr name ->
     name ≠ "" ->
     let c := Server.CreateDatabase name in
     status_of (run srv (serveCreateDatabase w r u) s)
     = Some (status_for 201 [] [ErrDatabaseExists] (srv c s).1)
     ∧ calls (run srv (serveCreateDatabase w r u) s) = [c])
  ∧ (∀ policy,
       json.Decode "influxdb.RetentionPolicy" RetentionPolicy_field (http.Body r)
         RetentionPolicy_zero = inr policy ->
       let c := Server.CreateRetentionPolicy (url.Get (http.Query r) ":db") policy in
       status_of (run srv (serveCreateRetentionPolicy w r u) s)
       = Some (status_for 201 [ErrDatabaseNotFound] [ErrRetentionPolicyExists] (srv c s).1)
       ∧ calls (run srv (serveCreateRetentionPolicy w r u) s) = [c])
  ∧ (∀ newUser,
       AuthenticationEnabled h = false ->
       json.Decode "influxdb.userJSON" userJSON_field (http.Body r) userJSON_zero
       = inr newUser ->
       let c := Server.CreateUser (Name newUser) (Password newUser) (Admin newUser) in
       status_of (run srv (serveCreateUser h w r) s)
       = Some (status_for 200 [] [ErrUserExists] (srv c s).1)
       ∧ calls (run srv (serveCreateUser h w r) s) = [c])
  ∧ (∀ n node e s1,
       json.Decode "influxdb.dataNodeJSON" dataNodeJSON_field (http.Body r)
         {| ID := 0; URL := "" |} = inr n ->
       url_Parse (URL n) = Some node ->
       srv (Server.CreateDataNode node) s = (Some e, s1) ->
       status_of (run srv (serveCreateDataNode url_Parse w r u) s)
       = Some (status_for 201 [] [ErrDataNodeExists] (Some e))
       ∧ calls (run srv (serveCreateDataNode url_Parse w r u) s)
         = [Server.CreateDataNode node]).
Proof.
  intros Hw. repeat split_and; cbv zeta.
  - intros name Hdec Hname. unfold serveCreateDatabase. rewrite Hdec.
    destruct (String.eqb_spec name "") as [|_]; [done |]. mapped Hw.
  - intros policy Hdec. unfold serveCreateRetentionPolicy. rewrite Hdec. mapped Hw.
  - intros newUser Hauth Hdec. unfold serveCreateUser. rewrite Hdec, Hauth. cbv zeta.
    change (Ret false ≫= ?k) with (k false). cbv beta iota. mapped Hw.
  - intros n node e s1 Hdec Hurl Hsrv. unfold serveCreateDataNode. rewrite Hdec, Hurl.
    run_step. rewrite Hsrv. cbn [fst snd]. destruct e; err_eval;
      unfold status_of, after, returned, calls; cbn [run fst snd fmap option_fmap option_map];
      rewrite ?status_Handler_error by exact Hw; by split.
Qed.

Lemma create_status_witness :
  status_of (run MemServer.server
               (serveCreateDatabase http.NewResponseWriter create_metrics_request None)
               with_metrics) = Some 409%Z
  ∧ status_of (run MemServer.server
                 (serveCreateDataNode parse_example http.NewResponseWriter node_request None)
                 with_node) = Some 409%Z.
Proof.
  split.
  - apply (proj1 (create_status MemServer.server with_metrics parse_example secured
                    http.NewResponseWriter create_metrics_request None eq_refl) "metrics");
      [by vm_compute | done].
  - apply (proj2 (proj2 (proj2 (create_status MemServer.server with_node parse_example
                                  secured http.NewResponseWriter node_request None eq_refl)))
             {| ID := 0; URL := "http://node1:8086" |}
             {| url.URL_String := "http://node1:8086" |} ErrDataNodeExists with_node);
      by vm_compute.
Defined.

(** ** Listing the users *)

(** X13: [serveUsers] lists every user of the server, in the server's
    order, by name and, when set, admin flag, and never writes a password
    member.  The status is 200, the content type [application/json], and
    the server is asked once, for its users. *)
Theorem serveUsers_lists_names {St : Type} (srv : Server.impl St) (s : St)
    (w : http.ResponseWriter) (r : http.Request) (u : option User) :
  http.written w = None ->
  http.handlerHeader w !! "Content-Type" = None ->
  http.body w = [] ->
  ∃ w',
    run srv (serveUsers w r u) s = (Some w', (srv Server.Users s).2, [Server.Users])
    ∧ http.status w' = 200%Z
    ∧ http.sent w' !! "Content-Type" = Some ["application/json"]
    ∧ http.body w' = [http.JSON (json.JArray (map listed (srv Server.Users s).1))].
Proof.
  intros Hw Hct Hbody. unfold serveUsers. run_step.
  eexists. split; [reflexivity |]. split; [by apply status_Encode |].
  unfold http.sent, Encode, http.Write, http.WriteHeader, http.AddHeader, http.Header_Add.
  cbn [http.written http.handlerHeader http.body]. rewrite Hw.
  cbn [http.written http.handlerHeader http.body]. rewrite Hbody, Hct.
  change (http.bodyAllowedForStatus http.StatusOK) with true.
  cbn [http.written http.handlerHeader http.body app default].
  split; [by rewrite lookup_insert_eq |].
  do 3 f_equal. rewrite List.map_map. apply List.map_ext. intros usr.
  unfold userJSON_Marshal, listed. cbn [Name Password Admin]. by destruct (User_Admin usr).
Qed.

Lemma serveUsers_lists_names_witness :
  ∃ w',
    run MemServer.server
      (serveUsers http.NewResponseWriter (anonymous_request "GET" (inl (Errorf "EOF"))) None)
      rooted = (Some w', rooted, [Server.Users])
    ∧ http.status w' = 200%Z
    ∧ http.sent w' !! "Content-Type" = Some ["application/json"]
    ∧ http.body w'
      = [http.JSON (json.JArray (map listed [{| User_Name := "root"; User_Admin := true |}]))].
Proof.
  apply (serveUsers_lists_names MemServer.server rooted http.NewResponseWriter
           (anonymous_request "GET" (inl (Errorf "EOF"))) None); reflexivity.
Defined.

(** ** Numbers in decimal *)

Lemma digits_of_uint_acc (d : Decimal.uint) (acc : positive) :
  strconv.digits (NilEmpty.string_of_uint d) (N.pos acc)
  = Some (N.pos (Pos.of_uint_acc d acc)).
Proof.
  revert acc. induction d as [|d IH|d IH|d IH|d IH|d IH|d IH|d IH|d IH|d IH|d IH]; intros acc;
    cbn [NilEmpty.string_of_uint strconv.digits Pos.of_uint_acc]; [reflexivity | ..];
    match goal with
    | |- context [strconv.digit ?c] =>
        let v := eval vm_compute in (strconv.digit c) in
        change (strconv.digit c) with v
    end;
    cbv beta iota; rewrite <- IH; f_equal; lia.
Qed.

Lemma digits_of_uint (d : Decimal.uint) :
  strconv.digits (NilEmpty.string_of_uint d) 0 = Some (N.of_uint d).
Proof.
  unfold N.of_uint.
  induction d as [|d IH|d IH|d IH|d IH|d IH|d IH|d IH|d IH|d IH|d IH];
    cbn [NilEmpty.string_of_uint strconv.digits Pos.of_uint]; [reflexivity | ..];
    match goal with
    | |- context [strconv.digit ?c] =>
        let v := eval vm_compute in (strconv.digit c) in
        change (strconv.digit c) with v
    end;
    cbv beta iota; change (0 * 10 + ?k)%N with k; first [exact IH | apply digits_of_uint_acc].
Qed.

(** Parsing undoes printing, for the numbers that fit 64 bits. *)
Lemma ParseUint_FormatUint (n : N) :
  strconv.ParseUint (FormatUint n) = if (n <? 2 ^ 64)%N then Some n else None.
Proof.
  pose proof (digits_of_uint (N.to_uint n)) as Hd.
  rewrite DecimalN.Unsigned.of_to in Hd. fold (FormatUint n) in Hd.
  unfold strconv.ParseUint. rewrite Hd.
  destruct (FormatUint n) eqn:Hf; [| reflexivity].
  injection Hd as <-. discriminate Hf.
Qed.

Lemma digits_all_digits (s : string) (acc n : N) :
  strconv.digits s acc = Some n -> all_digits s = true.
Proof.
  revert acc. induction s as [|c s IH]; intros acc; cbn [strconv.digits all_digits];
    [done |].
  destruct (strconv.digit c); [by apply IH | done].
Qed.

(** ** Data nodes *)

(** X16: the id of [DELETE /data_nodes/:id].  An id that is empty or holds
    a byte that is not a decimal digit is answered with 400 and the server
    is not called.  For an id that is a number printed in decimal, the
    server is asked to delete the node of that number when the number is
    below 2^64; a larger number is answered with 400 and the server is not
    called. *)
Theorem delete_data_node_id {St : Type} (srv : Server.impl St) (s : St)
    (w : http.ResponseWriter) (r : http.Request) (u : option User) :
  http.written w = None ->
  (url.Get (http.Query r) ":id" = "" ∨ all_digits (url.Get (http.Query r) ":id") = false ->
   run srv (serveDeleteDataNode w r u) s
   = (Some (Handler_error w "invalid node id" http.StatusBadRequest), s, [])
   ∧ status_of (run srv (serveDeleteDataNode w r u) s) = Some 400%Z)
  ∧ (∀ n, url.Get (http.Query r) ":id" = FormatUint n ->
       ((n < 2 ^ 64)%N ->
        calls (run srv (serveDeleteDataNode w r u) s) = [Server.DeleteDataNode n])
       ∧ ((2 ^ 64 <= n)%N ->
          run srv (serveDeleteDataNode w r u) s
          = (Some (Handler_error w "invalid node id" http.StatusBadRequest), s, [])
          ∧ status_of (run srv (serveDeleteDataNode w r u) s) = Some 400%Z)).
Proof.
  intros Hw.
  assert (strconv.ParseUint (url.Get (http.Query r) ":id") = None ->
          run srv (serveDeleteDataNode w r u) s
          = (Some (Handler_error w "invalid node id" http.StatusBadRequest), s, [])
          ∧ status_of (run srv (serveDeleteDataNode w r u) s) = Some 400%Z) as Hbad.
  { intros Hnone. unfold serveDeleteDataNode. rewrite Hnone. split; [reflexivity |].
    unfold status_of. cbn. by rewrite status_Handler_error. }
  split.
  - intros [Hempty | Hdigits]; apply Hbad.
    + by rewrite Hempty.
    + unfold strconv.ParseUint.
      destruct (url.Get (http.Query r) ":id") as [|c id]; [reflexivity |].
      destruct (strconv.digits (String c id) 0) as [n|] eqn:Hd; [| reflexivity].
      apply digits_all_digits in Hd. congruence.
  - intros n Hid. split.
    + intros Hn. unfold serveDeleteDataNode. rewrite Hid, ParseUint_FormatUint.
      apply N.ltb_lt in Hn. rewrite Hn. run_step.
      unfold calls, after. cbn [snd].
      destruct (srv (Server.DeleteDataNode n) s) as [[e|] s1]; cbn [fst snd]; [| reflexivity].
      by destruct (err_is (Some e) ErrDataNodeNotFound).
    + intros Hn. apply Hbad. rewrite Hid, ParseUint_FormatUint.
      apply N.ltb_ge in Hn. by rewrite Hn.
Qed.

Lemma delete_data_node_id_witness :
  status_of (run MemServer.server
               (serveDeleteDataNode http.NewResponseWriter (delete_node_request "-1") None)
               with_node) = Some 400%Z
  ∧ calls (run MemServer.server
             (serveDeleteDataNode http.NewResponseWriter
                (delete_node_request "18446744073709551615") None) with_node)
    = [Server.DeleteDataNode 18446744073709551615]
  ∧ status_of (run MemServer.server
                 (serveDeleteDataNode http.NewResponseWriter
                    (delete_node_request "18446744073709551616") None) with_node)
    = Some 400%Z.
Proof.
  split; [| split].
  - apply (proj1 (delete_data_node_id MemServer.server with_node http.NewResponseWriter
                    (delete_node_request "-1") None eq_refl)).
    right. reflexivity.
  - apply (proj2 (delete_data_node_id MemServer.server with_node http.NewResponseWriter
                    (delete_node_request "18446744073709551615") None eq_refl)
             18446744073709551615%N eq_refl).
    reflexivity.
  - apply (proj2 (delete_data_node_id MemServer.server with_node http.NewResponseWriter
                    (delete_node_request "18446744073709551616") None eq_refl)
             18446744073709551616%N eq_refl).
    discriminate.
Defined.

(** X17: a data node that the server accepts.  The handler asks the server
    to create the node and then to look it up by its URL.  When the server
    finds it, the status is 201, the body is the node that was found, its
    id in decimal and its URL, and the header map that [WriteHeader] fixes
    with the status is the one the writer had before the handler ran: the
    [application/json] that the handler adds after [WriteHeader] is not in
    it.  (What net/http adds to the handler's headers is not modelled.)
    When the server finds no node, the handler panics, after the server
    has created the node. *)
Theorem create_data_node_created {St : Type} (srv : Server.impl St) (s s1 : St)
    (url_Parse : string -> option url.URL) (w : http.ResponseWriter) (r : http.Request)
    (u : option User) (n : dataNodeJSON) (node : url.URL) :
  http.written w = None ->
  http.body w = [] ->
  json.Decode "influxdb.dataNodeJSON" dataNodeJSON_field (http.Body r)
    {| ID := 0; URL := "" |} = inr n ->
  url_Parse (URL n) = Some node ->
  srv (Server.CreateDataNode node) s = (None, s1) ->
  (∀ found s2,
     srv (Server.DataNodeByURL node) s1 = (Some found, s2) ->
     ∃ w',
       run srv (serveCreateDataNode url_Parse w r u) s
       = (Some w', s2, [Server.CreateDataNode node; Server.DataNodeByURL node])
       ∧ http.status w' = 201%Z
       ∧ http.body w'
         = [http.JSON (json.JObject
                         [("id", json.JNumber (FormatUint (DataNode_ID found)));
                          ("url", json.JString (url.URL_String (DataNode_URL found)))])]
       ∧ http.written w' = Some (201%Z, http.handlerHeader w))
  ∧ (∀ s2,
       srv (Server.DataNodeByURL node) s1 = (None, s2) ->
       run srv (serveCreateDataNode url_Parse w r u) s
       = (None, s2, [Server.CreateDataNode node; Server.DataNodeByURL node])).
Proof.
  intros Hw Hbody Hdec Hurl Hcreate. unfold serveCreateDataNode. rewrite Hdec, Hurl.
  run_step. rewrite Hcreate. cbn [fst snd]. split.
  - intros found s2 Hfind. run_step. rewrite Hfind. cbn [fst snd].
    eexists. split; [reflexivity |].
    split; [by apply status_Encode_written |].
    unfold Encode, http.Write, http.WriteHeader, http.AddHeader.
    cbn [http.written http.handlerHeader http.body]. rewrite Hw.
    cbn [http.written http.handlerHeader http.body].
    change (http.bodyAllowedForStatus http.StatusCreated) with true.
    cbn [http.written http.handlerHeader http.body]. by rewrite Hbody.
  - intros s2 Hfind. run_step. by rewrite Hfind.
Qed.

Lemma create_data_node_created_witness :
  ∃ w',
    run MemServer.server
      (serveCreateDataNode parse_example http.NewResponseWriter node_request None) rooted
    = (Some w', with_node,
       [Server.CreateDataNode {| url.URL_String := "http://node1:8086" |};
        Server.DataNodeByURL {| url.URL_String := "http://node1:8086" |}])
    ∧ http.status w' = 201%Z
    ∧ http.body w'
      = [http.JSON (json.JObject [("id", json.JNumber (FormatUint 1));
                                  ("url", json.JString "http://node1:8086")])]
    ∧ http.written w' = Some (201%Z, http.handlerHeader http.NewResponseWriter).
Proof.
  apply (proj1 (create_data_node_created MemServer.server rooted with_node parse_example
                  http.NewResponseWriter node_request None
                  {| ID := 0; URL := "http://node1:8086" |}
                  {| url.URL_String := "http://node1:8086" |}
                  eq_refl eq_refl eq_refl eq_refl eq_refl)
           {| DataNode_ID := 1;
              DataNode_URL := {| url.URL_String := "http://node1:8086" |} |} with_node).
  reflexivity.
Defined.

(** ** The gate and the credentials it finds *)

(** X18: a request without any credentials is not refused by the gate
    itself.  With authentication enabled, when the request carries neither
    both query parameters nor an Authorization header, the gate asks the
    server to authenticate the empty username with the empty password:
    the answer is 401 when the server returns an error, and the wrapped
    handler runs, with the user the server returned, when it does not. *)
Theorem gate_without_credentials {St : Type} (srv : Server.impl St) (s : St)
    (h : Handler) (fn : UserHandler) (w : http.ResponseWriter) (r : http.Request) :
  AuthenticationEnabled h = true ->
  query_credentials r = false ->
  http.Header r !! "Authorization" = None ->
  match srv (Server.AuthenticatedUser "" "") s with
  | ((_, Some e), s1) =>
      run srv (makeAuthenticationHandler h fn w r) s
      = (Some (Handler_error w (Error e) http.StatusUnauthorized), s1,
         [Server.AuthenticatedUser "" ""])
  | ((usr, None), s1) =>
      run srv (makeAuthenticationHandler h fn w r) s
      = after (Server.AuthenticatedUser "" "") (run srv (fn w r usr) s1)
  end.
Proof.
  intros Hauth Hq Hnone.
  assert (getUsernameAndPassword r = ("", "", None)) as Hget.
  { rewrite getUsernameAndPassword_header by exact Hq.
    unfold http.Header_Get. by rewrite Hnone. }
  unfold makeAuthenticationHandler. rewrite Hauth, Hget. cbv beta iota zeta.
  run_step. by destruct (srv (Server.AuthenticatedUser "" "") s) as [[usr [e|]] s1].
Qed.

Lemma gate_without_credentials_witness :
  run MemServer.server
    (makeAuthenticationHandler secured serveDeleteDatabase http.NewResponseWriter
       delete_database_request) nameless
  = after (Server.AuthenticatedUser "" "")
      (run MemServer.server
         (serveDeleteDatabase http.NewResponseWriter delete_database_request
            (Some {| User_Name := ""; User_Admin := false |})) nameless).
Proof.
  apply (gate_without_credentials MemServer.server nameless secured serveDeleteDatabase
           http.NewResponseWriter delete_database_request); reflexivity.
Defined.

(** X19: credentials in the query win over the Authorization header.
    With authentication enabled, when the query parameters [u] and [p] are
    both given, the gate asks the server to authenticate exactly that
    pair, whatever the Authorization header holds, a malformed value
    included: the answer is 401 when the server returns an error, and the
    wrapped handler runs when it does not. *)
Theorem gate_query_credentials {St : Type} (srv : Server.impl St) (s : St)
    (h : Handler) (fn : UserHandler) (w : http.ResponseWriter) (r : http.Request) :
  AuthenticationEnabled h = true ->
  query_credentials r = true ->
  match srv (Server.AuthenticatedUser (url.Get (http.Query r) "u")
               (url.Get (http.Query r) "p")) s with
  | ((_, Some e), s1) =>
      run srv (makeAuthenticationHandler h fn w r) s
      = (Some (Handler_error w (Error e) http.StatusUnauthorized), s1,
         [Server.AuthenticatedUser (url.Get (http.Query r) "u")
            (url.Get (http.Query r) "p")])
  | ((usr, None), s1) =>
      run srv (makeAuthenticationHandler h fn w r) s
      = after (Server.AuthenticatedUser (url.Get (http.Query r) "u")
                 (url.Get (http.Query r) "p"))
          (run srv (fn w r usr) s1)
  end.
Proof.
  intros Hauth Hq.
  assert (getUsernameAndPassword r
          = (url.Get (http.Query r) "u", url.Get (http.Query r) "p", None)) as Hget.
  { unfold getUsernameAndPassword. unfold query_credentials in Hq. cbv zeta. by rewrite Hq. }
  unfold makeAuthenticationHandler. rewrite Hauth, Hget. cbv beta iota zeta.
  run_step.
  by destruct (srv (Server.AuthenticatedUser (url.Get (http.Query r) "u")
                      (url.Get (http.Query r) "p")) s) as [[usr [e|]] s1].
Qed.

Lemma gate_query_credentials_witness :
  malformed (http.Header_Get (http.Header both_request) "Authorization")
  ∧ run MemServer.server
      (makeAuthenticationHandler secured serveUsers http.NewResponseWriter both_request)
      rooted
    = after (Server.AuthenticatedUser "root" "toor")
        (run MemServer.server
           (serveUsers http.NewResponseWriter both_request
              (Some {| User_Name := "root"; User_Admin := true |})) rooted).
Proof.
  split; [split; [done | left; by vm_compute] |].
  apply (gate_query_credentials MemServer.server rooted secured serveUsers
           http.NewResponseWriter both_request); reflexivity.
Defined.

(** ** The listings *)

(** X20: the listings of shards and of retention policies, from what the
    server returns: one call to the server; without error the status is 200
    and the body is the document of what the server listed; the status is
    404 when the server says the database is not found and 500 for any
    other error.  The listings of databases and of data nodes have no
    error: the status is 200 and the body is one document. *)
Theorem list_status {St : Type} (srv : Server.impl St) (s : St)
    (w : http.ResponseWriter) (r : http.Request) (u : option User) :
  http.written w = None ->
  http.body w = [] ->
  (let c := Server.Shards (url.Get (http.Query r) ":db") in
   status_of (run srv (serveShards w r u) s)
   = Some (status_for 200 [ErrDatabaseNotFound] [] (srv c s).1.2)
   ∧ calls (run srv (serveShards w r u) s) = [c]
   ∧ ((srv c s).1.2 = None ->
      http.body <$> returned (run srv (serveShards w r u) s)
      = Some [http.JSON (srv c s).1.1]))
  ∧ (let c := Server.RetentionPolicies (url.Get (http.Query r) ":db") in
     status_of (run srv (serveRetentionPolicies w r u) s)
     = Some (status_for 200 [ErrDatabaseNotFound] [] (srv c s).1.2)
     ∧ calls (run srv (serveRetentionPolicies w r u) s) = [c]
     ∧ ((srv c s).1.2 = None ->
        http.body <$> returned (run srv (serveRetentionPolicies w r u) s)
        = Some [http.JSON (srv c s).1.1]))
  ∧ (status_of (run srv (serveDatabases w r u) s) = Some 200%Z
     ∧ calls (run srv (serveDatabases w r u) s) = [Server.Databases]
     ∧ http.body <$> returned (run srv (serveDatabases w r u) s)
       = Some [http.JSON (srv Server.Databases s).1])
  ∧ (status_of (run srv (serveDataNodes w r u) s) = Some 200%Z
     ∧ calls (run srv (serveDataNodes w r u) s) = [Server.DataNodes]
     ∧ http.body <$> returned (run srv (serveDataNodes w r u) s)
       = Some [http.JSON
                 (json.JArray
                    (map (fun n => json.JObject
                                     [("id", json.JNumber (FormatUint (DataNode_ID n)));
                                      ("url", json.JString (url.URL_String (DataNode_URL n)))])
                       (srv Server.DataNodes s).1))]).
Proof.
  intros Hw Hbody.
  assert (∀ key value v,
            http.body (Encode (http.AddHeader w key value) v) = [http.JSON v]) as Hjson.
  { intros key value v.
    unfold Encode, http.Write, http.WriteHeader, http.AddHeader.
    cbn [http.written http.handlerHeader http.body]. rewrite Hw.
    cbn [http.written http.handlerHeader http.body].
    change (http.bodyAllowedForStatus http.StatusOK) with true.
    cbn [http.body]. by rewrite Hbody. }
  split; [| split; [| split]]; cbv zeta.
  - unfold serveShards. cbv zeta. run_step.
    destruct (srv (Server.Shards _) s) as [[shards [[]|]] s1]; cbn [fst snd]; err_eval;
      unfold status_of, after, returned, calls;
      cbn [run fst snd fmap option_fmap option_map];
      rewrite ?status_Handler_error, ?status_Encode, ?Hjson by exact Hw; by repeat split.
  - unfold serveRetentionPolicies. run_step.
    destruct (srv (Server.RetentionPolicies _) s) as [[policies [[]|]] s1]; cbn [fst snd];
      err_eval; unfold status_of, after, returned, calls;
      cbn [run fst snd fmap option_fmap option_map];
      rewrite ?status_Handler_error, ?status_Encode, ?Hjson by exact Hw; by repeat split.
  - unfold serveDatabases. run_step. unfold status_of, after, returned, calls.
    cbn [run fst snd fmap option_fmap option_map].
    rewrite status_Encode, Hjson by exact Hw. by repeat split.
  - unfold serveDataNodes. run_step. unfold status_of, after, returned, calls.
    cbn [run fst snd fmap option_fmap option_map].
    rewrite status_Encode, Hjson by exact Hw. repeat split.
    do 3 f_equal. by rewrite List.map_map.
Qed.

Lemma list_status_witness :
  status_of (run MemServer.server
               (serveShards http.NewResponseWriter
                  (request "GET" [(":db", "metrics")] [] (inl (Errorf "EOF"))) None) rooted)
  = Some 404%Z
  ∧ status_of (run MemServer.server
                 (serveShards http.NewResponseWriter
                    (request "GET" [(":db", "metrics")] [] (inl (Errorf "EOF"))) None)
                 with_metrics)
    = Some 200%Z.
Proof.
  split.
  - apply (proj1 (list_status MemServer.server rooted http.NewResponseWriter
                    (request "GET" [(":db", "metrics")] [] (inl (Errorf "EOF"))) None
                    eq_refl eq_refl)).
  - apply (proj1 (list_status MemServer.server with_metrics http.NewResponseWriter
                    (request "GET" [(":db", "metrics")] [] (inl (Errorf "EOF"))) None
                    eq_refl eq_refl)).
Defined.
